(** * Neulex front end: risk bucketing, comparison insights, result
      formatting and selection state

    A shallow embedding of the React components of the Neulex front end
    (Comparison.js, Analysis.js, Dashboard.js, History.js, Profile.js).

    Conventions of the embedding.
    - A finite JavaScript number is represented by the rational it denotes
      ([Q]); order comparisons of doubles agree with the order of these
      rationals.  What the code computes ([10 - x], [parseFloat]) is rounded
      to the nearest double, ties to even, by [round64].  [NaN] is a value
      of its own; the infinities are left out.
    - A score property of a JSON object is missing ([Undefined]), [Null] or a
      number: strings, booleans, arrays and objects in a score position are
      outside the embedding, since comparing them goes through the built-in
      ToPrimitive and StringToNumber conversions.
    - A string is a [string], one [ascii] per UTF-16 code unit below 256.
    - A template literal is kept as the sequence of its literal chunks and of
      the values interpolated into it. *)

From Stdlib Require Import QArith Qabs Qround Qpower Lqa Lia.
From Stdlib Require Import List String Ascii Bool ZArith.
From Stdlib Require Import Permutation DecimalString DecimalNat.
Import ListNotations.

Local Open Scope string_scope.
Local Open Scope list_scope.
Local Open Scope Q_scope.

(* ================================================================== *)
(** ** JavaScript values and operators *)

Module JS.

(** What a score position holds. *)
Inductive value : Type :=
| Undefined
| Null
| Num (q : Q)
| NaN.

(** ToBoolean: [undefined], [null], [NaN] and [0] are falsy. *)
Definition truthy (v : value) : bool :=
  match v with
  | Num q => negb (Qeq_bool q 0)
  | _ => false
  end.

(** [a || b]. *)
Definition or (a b : value) : value :=
  if truthy a then a else b.

(** ToNumber; [None] stands for NaN. *)
Definition to_number (v : value) : option Q :=
  match v with
  | Undefined => None
  | Null => Some 0
  | Num q => Some q
  | NaN => None
  end.

(** [a >= b]: false as soon as one side converts to NaN. *)
Definition ge (a b : value) : bool :=
  match to_number a, to_number b with
  | Some x, Some y => Qle_bool y x
  | _, _ => false
  end.

(** [a > b]. *)
Definition gt (a b : value) : bool :=
  match to_number a, to_number b with
  | Some x, Some y => negb (Qle_bool x y)
  | _, _ => false
  end.

(** Rounding to an integer, to nearest, ties to even. *)
Definition roundHalfEven (x : Q) : Z :=
  let f := Qfloor x in
  match Qcompare (x - inject_Z f) (1 # 2) with
  | Lt => f
  | Gt => (f + 1)%Z
  | Eq => if Z.even f then f else (f + 1)%Z
  end.

(** The exponent [e] with [2^e <= q < 2^(e+1)], for [0 < q]. *)
Definition binade (q : Q) : Z :=
  if Qle_bool 1 q then Z.log2 (Qfloor q)
  else
    let l := Z.log2 (Qfloor (/ q)) in
    if Qeq_bool (q * 2 ^ l) 1 then (- l)%Z else (- l - 1)%Z.

(** The exponent of the unit in the last place of the doubles around [q]:
    53 significant bits, and [2^-1074] for the subnormal numbers. *)
Definition ulpExponent (q : Q) : Z := Z.max (binade q - 52) (-1074).

(** The nearest multiple of the unit in the last place, for [0 < q]. *)
Definition roundPositive (q : Q) : Q :=
  let u := ulpExponent q in
  inject_Z (roundHalfEven (q * 2 ^ (- u))) * 2 ^ u.

(** The double nearest to [q], ties to even, as a reduced fraction.  The
    overflow to an infinity, from [2^1024 - 2^970] on, is not represented;
    it cannot occur in [10 - x] for a double [x]. *)
Definition round64 (q : Q) : Q :=
  match Qcompare q 0 with
  | Eq => 0
  | Gt => Qred (roundPositive q)
  | Lt => Qred (- roundPositive (- q))
  end.

(** [Number.MAX_VALUE], the largest double: what [round64] returns is the
    result of the engine for every rational up to it in absolute value. *)
Definition maxValue : Q := inject_Z ((2 ^ 53 - 1) * 2 ^ 971).

(** [a - b]: the difference, rounded to the nearest double. *)
Definition sub (a b : value) : value :=
  match to_number a, to_number b with
  | Some x, Some y => Num (round64 (x - y))
  | _, _ => NaN
  end.

(** A string-valued property: [None] is a missing or [null] property.
    The empty string is falsy. *)
Definition text := option string.

Definition text_truthy (t : text) : bool :=
  match t with
  | Some s => negb (String.eqb s "")
  | None => false
  end.

(** [t || dflt] with a string default. *)
Definition text_or (t : text) (dflt : string) : string :=
  match t with
  | Some s => if String.eqb s "" then dflt else s
  | None => dflt
  end.

(** A template literal: literal chunks and interpolated values, in order. *)
Inductive piece : Type :=
| Lit (s : string)
| Val (v : value).

Definition template := list piece.

End JS.

Import JS.

(* ================================================================== *)
(** ** JSON shapes exchanged with the backend *)

Module Payload.

(** The five score properties, as found in a [risk_scores] object and at the
    top level of an analysis object. *)
Record scores : Type := mkScores {
  data_risk : value;
  user_rights_score : value;
  readability_score : value;
  overall_risk : value;
  termination_risk : value
}.

(** An object without any score property. *)
Definition no_scores : scores :=
  mkScores Undefined Undefined Undefined Undefined Undefined.

(** The properties the components only display or copy. *)
Record details : Type := mkDetails {
  company : text;
  source : text;
  error : text;
  summary : text;
  data_collection : option (list string);
  user_rights : option (list string);
  recommendations : option (list string);
  ai_provider : text
}.

Definition no_details : details :=
  mkDetails None None None None None None None None.

(** An analysis object (also an entry of [comparisons]): an optional
    [risk_scores] object, its own top-level score properties, an optional
    [risk_level], and the remaining properties. *)
Record analysis : Type := mkAnalysis {
  risk_scores : option scores;
  own : scores;
  risk_level : text;
  rest : details
}.

(** The [analysis] property of a response: missing or [null], a table-format
    string, or an object. *)
Inductive payload : Type :=
| Missing
| Table (s : string)
| Object (a : analysis).

(** [p?.risk_scores]. *)
Definition risk_scores_of (p : payload) : option scores :=
  match p with
  | Object a => risk_scores a
  | _ => None
  end.

(** The object on which [p?.data_risk] and the like are read; a string has
    none of the score properties. *)
Definition own_of (p : payload) : option scores :=
  match p with
  | Object a => Some (own a)
  | _ => None
  end.

(** [o?.f] for a score property [f]. *)
Definition field (f : scores -> value) (o : option scores) : value :=
  match o with
  | Some s => f s
  | None => Undefined
  end.

(** An entry of the history list. *)
Record history_item : Type := mkItem {
  risk_score : value;
  domain : text;
  url : text;
  created_at : text
}.

End Payload.

Import Payload.

(* ================================================================== *)
(** ** Requests, replies and alerts *)

Module Net.

(** A string property where [undefined] and [null] must be told apart. *)
Inductive strval : Type :=
| SUndefined
| SNull
| SStr (s : string).

(** What a handler does to the outside: [alert], a POST to [/api/compare]
    for the array [companies] handed to [JSON.stringify], a GET of
    [/api/analyze/url] with its [url] query parameter (before
    [encodeURIComponent]).  Console output is left out. *)
Inductive action : Type :=
| Alert (msg : string)
| PostCompare (companies : list strval)
| GetAnalyzeUrl (url : string).

(** The [companies] array as [JSON.stringify] writes it into the request
    body: a string stays a string, [undefined] and [null] become [null]
    ([None]). *)
Definition stringifyNames (names : list strval) : list (option string) :=
  map (fun name => match name with SStr s => Some s | _ => None end) names.

(** An object body of a response, as far as the handlers read it; a body
    that is a number, a string or a boolean has none of the three
    properties. *)
Record apiResult : Type := mkResult {
  success : bool;
  result_analysis : payload;
  result_error : text
}.

(** The body of a response to an analysis request: JSON [null], with the
    message of the TypeError the engine raises when a property of it is
    read, or a value whose properties can be read. *)
Inductive body : Type :=
| NullBody (typeError : string)
| Body (result : apiResult).

(** How a request ends inside the [try] block of a handler: an exception
    with the given message reaches the [catch] block (the promise of [fetch]
    or of reading the response rejects, or, in [runComparison], formatting a
    body of another shape than [comparison] throws); the response is not
    [ok] (status, body text); [response.json()] yields [result]. *)
Inductive reply (R : Type) : Type :=
| Rejected (message : string)
| NotOk (status : nat) (errorText : string)
| Json (result : R).

Arguments Rejected {R} message.
Arguments NotOk {R} status errorText.
Arguments Json {R} result.

(** Decimal rendering of a status code. *)
Definition showNat (n : nat) : string :=
  NilEmpty.string_of_uint (Nat.to_uint n).

End Net.

Import Net.

(* ================================================================== *)
(** ** Comparison.js *)

Module Comparison.

Definition getRiskLevel (score : value) : string :=
  if ge score (Num 7) then "high"
  else if ge score (Num 4) then "medium"
  else "low".

Definition getRiskColor (score : value) : string :=
  if ge score (Num 7) then "#ff4757"
  else if ge score (Num 4) then "#ffa502"
  else "#2ed573".

(** [analysis?.risk_scores?.overall_risk || analysis?.overall_risk || 0]. *)
Definition overallOf (a : payload) : value :=
  or (or (field overall_risk (risk_scores_of a))
         (field overall_risk (own_of a)))
     (Num 0).

(** [analysis?.risk_scores?.data_risk || analysis?.data_risk || 0]. *)
Definition dataRiskOf (a : payload) : value :=
  or (or (field data_risk (risk_scores_of a))
         (field data_risk (own_of a)))
     (Num 0).

Definition url1Higher (risk1 risk2 : value) : template :=
  [Lit "URL 1 has higher overall risk than URL 2 ("; Val risk1;
   Lit " vs "; Val risk2; Lit ")"].

Definition url2Higher (risk1 risk2 : value) : template :=
  [Lit "URL 2 has higher overall risk than URL 1 ("; Val risk2;
   Lit " vs "; Val risk1; Lit ")"].

Definition bothSimilar : template :=
  [Lit "Both URLs have similar overall risk levels"].

Definition url1MoreData : template :=
  [Lit "URL 1 collects more user data than URL 2"].

Definition url2MoreData : template :=
  [Lit "URL 2 collects more user data than URL 1"].

Definition generateUrlInsights (analysis1 analysis2 : payload)
  : list template :=
  let insights := [] in
  let risk1 := overallOf analysis1 in
  let risk2 := overallOf analysis2 in
  let insights :=
    if gt risk1 risk2 then insights ++ [url1Higher risk1 risk2]
    else if gt risk2 risk1 then insights ++ [url2Higher risk1 risk2]
    else insights ++ [bothSimilar] in
  let dataRisk1 := dataRiskOf analysis1 in
  let dataRisk2 := dataRiskOf analysis2 in
  let insights :=
    if gt dataRisk1 dataRisk2 then insights ++ [url1MoreData]
    else if gt dataRisk2 dataRisk1 then insights ++ [url2MoreData]
    else insights in
  insights.

(** The object literal used when [risk_scores] is missing: four properties,
    each the top-level score or [0]; [o] is the object the top-level scores
    are read from. *)
Definition fallbackScores (o : option scores) : scores :=
  mkScores (or (field data_risk o) (Num 0))
           (or (field user_rights_score o) (Num 0))
           (or (field readability_score o) (Num 0))
           (or (field overall_risk o) (Num 0))
           Undefined.

(** One entry of [comparisons] as [formatComparisonData] rebuilds it:
    [{...comp, risk_scores: ..., risk_level: ...}]. *)
Definition formatComp (comp : analysis) : analysis :=
  mkAnalysis
    (Some match risk_scores comp with
          | Some s => s
          | None => fallbackScores (Some (own comp))
          end)
    (own comp)
    (Some (text_or (risk_level comp)
             (getRiskLevel
                (or (or (overall_risk (own comp))
                        (field overall_risk (risk_scores comp)))
                    (Num 0)))))
    (rest comp).

(** A comparison result: the [comparisons] array when present, the insight
    strings and the comparison type. *)
Record comparison : Type := mkComparison {
  comparisons : option (list analysis);
  insights : option (list template);
  comparison_type : text
}.

(** [None] is a falsy argument, respectively the [null] result. *)
Definition formatComparisonData (comparisonData : option comparison)
  : option comparison :=
  match comparisonData with
  | None => None
  | Some d =>
      Some (mkComparison
              (Some match comparisons d with
                    | Some l => map formatComp l
                    | None => []
                    end)
              (insights d)
              (comparison_type d))
  end.

(** One entry of the URL comparison built by [compareUrls]. *)
Definition urlEntry (label customUrl : string) (a : payload) : analysis :=
  mkAnalysis
    (Some match risk_scores_of a with
          | Some s => s
          | None => fallbackScores (own_of a)
          end)
    no_scores
    (Some (getRiskLevel
             (or (or (field overall_risk (own_of a))
                     (field overall_risk (risk_scores_of a)))
                 (Num 0))))
    (mkDetails (Some label) (Some customUrl) None None None None None None).

(** The object [urlComparisonData] of [compareUrls]. *)
Definition urlComparisonData (customUrl1 customUrl2 : string)
  (analysis1 analysis2 : payload) : comparison :=
  mkComparison
    (Some [urlEntry "Custom URL 1" customUrl1 analysis1;
           urlEntry "Custom URL 2" customUrl2 analysis2])
    (Some (generateUrlInsights analysis1 analysis2))
    (Some "url").

(** A row of [comparisonChartData]. *)
Record chartRow : Type := mkRow {
  row_name : string;
  row_data_risk : value;
  row_user_rights : value;
  row_readability : value;
  row_overall_risk : value
}.

Definition chartRowOf (comp : analysis) : chartRow :=
  mkRow (text_or (company (rest comp)) "Unknown")
        (or (field data_risk (risk_scores comp)) (Num 0))
        (or (field user_rights_score (risk_scores comp)) (Num 0))
        (or (field readability_score (risk_scores comp)) (Num 0))
        (or (field overall_risk (risk_scores comp)) (Num 0)).

(** [currentComparison?.comparisons?.map(...) || []]. *)
Definition comparisonChartData (currentComparison : option comparison)
  : list chartRow :=
  match currentComparison with
  | Some c =>
      match comparisons c with
      | Some l => map chartRowOf l
      | None => []
      end
  | None => []
  end.

(** The class given to each score of a comparison card. *)
Definition dataRiskClass (comp : analysis) : string :=
  getRiskLevel (field data_risk (risk_scores comp)).

Definition userRightsClass (comp : analysis) : string :=
  getRiskLevel
    (sub (Num 10) (or (field user_rights_score (risk_scores comp)) (Num 0))).

Definition readabilityClass (comp : analysis) : string :=
  getRiskLevel
    (sub (Num 10) (or (field readability_score (risk_scores comp)) (Num 0))).

(** *** Component state and event handlers *)

Section Selection.

(** Company ids are primitives of one JSON type (all numbers or all strings),
    so that [==], [!==] and [Array.prototype.includes] are decided by
    equality. *)
Variable Id : Type.
Variable Id_eq_dec : forall x y : Id, {x = y} + {x <> y}.

Record company : Type := mkCompany {
  company_id : Id;
  company_name : strval;
  company_url : strval
}.

Record state : Type := mkState {
  companies : list company;
  selectedCompanies : list Id;
  comparison_ : option comparison;
  loading : bool;
  error_ : string;
  customUrl1 : string;
  customUrl2 : string;
  urlComparison : option comparison;
  urlLoading : bool
}.

(** The updater passed to [setSelectedCompanies], with the alerts it raises. *)
Definition toggleSelected (companyId : Id) (prev : list Id)
  : list Id * list action :=
  if in_dec Id_eq_dec companyId prev then
    (filter (fun id => if Id_eq_dec id companyId then false else true) prev,
     [])
  else if (4 <=? List.length prev)%nat then
    (prev, [Alert "Maximum 4 companies can be compared at once"])
  else
    (prev ++ [companyId], []).

Definition toggleCompany (companyId : Id) (st : state)
  : state * list action :=
  let '(sel, acts) := toggleSelected companyId (selectedCompanies st) in
  (mkState (companies st) sel (comparison_ st) (loading st) (error_ st)
           (customUrl1 st) (customUrl2 st) (urlComparison st) (urlLoading st),
   acts).

(** [selectedCompanies.map(id => ...).filter(name => name !== null)]. *)
Definition companyNames (st : state) : list strval :=
  filter (fun name => match name with SNull => false | _ => true end)
    (map (fun id =>
            match find (fun c => if Id_eq_dec (company_id c) id
                                 then true else false) (companies st) with
            | Some c => company_name c
            | None => SNull
            end)
         (selectedCompanies st)).

(** The state setters of the component. *)
Definition setComparison (c : option comparison) (st : state) : state :=
  mkState (companies st) (selectedCompanies st) c (loading st) (error_ st)
          (customUrl1 st) (customUrl2 st) (urlComparison st) (urlLoading st).

Definition setLoading (b : bool) (st : state) : state :=
  mkState (companies st) (selectedCompanies st) (comparison_ st) b (error_ st)
          (customUrl1 st) (customUrl2 st) (urlComparison st) (urlLoading st).

Definition setError (e : string) (st : state) : state :=
  mkState (companies st) (selectedCompanies st) (comparison_ st) (loading st) e
          (customUrl1 st) (customUrl2 st) (urlComparison st) (urlLoading st).

Definition setUrlComparison (u : option comparison) (st : state) : state :=
  mkState (companies st) (selectedCompanies st) (comparison_ st) (loading st)
          (error_ st) (customUrl1 st) (customUrl2 st) u (urlLoading st).

Definition setUrlLoading (b : bool) (st : state) : state :=
  mkState (companies st) (selectedCompanies st) (comparison_ st) (loading st)
          (error_ st) (customUrl1 st) (customUrl2 st) (urlComparison st) b.

(** [runComparison] up to its first [await]: the guard, the four state
    updates and the request. *)
Definition runComparisonStart (st : state) : state * list action :=
  if (List.length (selectedCompanies st) <? 2)%nat then
    (st, [Alert "Please select at least 2 companies to compare"])
  else
    (setError "" (setUrlComparison None (setComparison None
       (setLoading true st))),
     [PostCompare (companyNames st)]).

(** [runComparison] once its request has ended with [r]: the updates it
    makes to the state [st] of that moment, which other handlers may have
    changed in the meantime. *)
Definition runComparisonSettle (r : reply (option comparison)) (st : state)
  : state :=
  match r with
  | Rejected message =>
      setLoading false (setError ("Comparison failed: " ++ message)%string st)
  | NotOk status errorText =>
      setLoading false
        (setError
           ("Comparison failed: " ++
            ("Comparison failed: " ++ showNat status ++ " - " ++ errorText))
           %string
           st)
  | Json result =>
      setLoading false (setComparison (formatComparisonData result) st)
  end.

(** [runComparison] run to completion against the reply [r] of the one
    request it may issue, no other handler running in between. *)
Definition runComparison (st : state) (r : reply (option comparison))
  : state * list action :=
  if (List.length (selectedCompanies st) <? 2)%nat then
    runComparisonStart st
  else
    (runComparisonSettle r (fst (runComparisonStart st)),
     snd (runComparisonStart st)).

(** The [catch] and [finally] blocks of [compareUrls]. *)
Definition urlFailed (message : string) (st : state) : state :=
  setUrlLoading false
    (setError ("URL comparison failed: " ++ message)%string st).

(** [compareUrls] up to its first [await]. *)
Definition compareUrlsStart (st : state) : state * list action :=
  if (String.eqb (customUrl1 st) "" || String.eqb (customUrl2 st) "")%bool
  then
    (st, [Alert "Please enter both URLs to compare"])
  else
    (setError "" (setComparison None (setUrlComparison None
       (setUrlLoading true st))),
     [GetAnalyzeUrl (customUrl1 st)]).

(** [compareUrls] once its first request has ended with [r1], in the state
    [st] of that moment: it fails, or goes on to request the second URL,
    [url2] being the value of [customUrl2] when the handler was started. *)
Definition compareUrlsFirst (url2 : string) (r1 : reply body) (st : state)
  : state * list action :=
  match r1 with
  | Rejected message => (urlFailed message st, [])
  | NotOk status _ =>
      (urlFailed ("URL 1 analysis failed: " ++ showNat status)%string st, [])
  | Json _ => (st, [GetAnalyzeUrl url2])
  end.

(** [compareUrls] once its second request has ended with [r2], the first one
    having yielded [result1], in the state [st] of that moment.  The bodies
    are read only now, the first one first. *)
Definition compareUrlsSecond (url1 url2 : string) (result1 : body)
  (r2 : reply body) (st : state) : state :=
  match r2 with
  | Rejected message => urlFailed message st
  | NotOk status _ =>
      urlFailed ("URL 2 analysis failed: " ++ showNat status)%string st
  | Json result2 =>
      match result1, result2 with
      | NullBody typeError, _ => urlFailed typeError st
      | Body _, NullBody typeError => urlFailed typeError st
      | Body a, Body b =>
          setUrlLoading false
            (setUrlComparison
               (Some (urlComparisonData url1 url2
                        (result_analysis a) (result_analysis b)))
               st)
      end
  end.

(** [compareUrls] run to completion against the replies of its two
    requests, no other handler running in between. *)
Definition compareUrls (st : state) (r1 r2 : reply body)
  : state * list action :=
  if (String.eqb (customUrl1 st) "" || String.eqb (customUrl2 st) "")%bool
  then
    compareUrlsStart st
  else
    let st1 := fst (compareUrlsStart st) in
    let get1 := snd (compareUrlsStart st) in
    match r1 with
    | Json result1 =>
        (compareUrlsSecond (customUrl1 st) (customUrl2 st) result1 r2
           (fst (compareUrlsFirst (customUrl2 st) r1 st1)),
         get1 ++ snd (compareUrlsFirst (customUrl2 st) r1 st1))
    | _ =>
        (fst (compareUrlsFirst (customUrl2 st) r1 st1),
         get1 ++ snd (compareUrlsFirst (customUrl2 st) r1 st1))
    end.

(** [comparison || urlComparison]. *)
Definition currentComparison (st : state) : option comparison :=
  match comparison_ st with
  | Some c => Some c
  | None => urlComparison st
  end.

End Selection.

Arguments mkCompany {Id} _ _ _.
Arguments company_id {Id} _.
Arguments company_name {Id} _.
Arguments company_url {Id} _.
Arguments mkState {Id} _ _ _ _ _ _ _ _ _.
Arguments companies {Id} _.
Arguments selectedCompanies {Id} _.
Arguments comparison_ {Id} _.
Arguments loading {Id} _.
Arguments error_ {Id} _.
Arguments customUrl1 {Id} _.
Arguments customUrl2 {Id} _.
Arguments urlComparison {Id} _.
Arguments urlLoading {Id} _.
Arguments toggleSelected {Id} _ _ _.
Arguments toggleCompany {Id} _ _ _.
Arguments companyNames {Id} _ _.
Arguments setComparison {Id} _ _.
Arguments setLoading {Id} _ _.
Arguments setError {Id} _ _.
Arguments setUrlComparison {Id} _ _.
Arguments setUrlLoading {Id} _ _.
Arguments runComparisonStart {Id} _ _.
Arguments runComparisonSettle {Id} _ _.
Arguments runComparison {Id} _ _ _.
Arguments urlFailed {Id} _ _.
Arguments compareUrlsStart {Id} _.
Arguments compareUrlsFirst {Id} _ _ _.
Arguments compareUrlsSecond {Id} _ _ _ _ _.
Arguments compareUrls {Id} _ _ _.
Arguments currentComparison {Id} _.

End Comparison.

(* ================================================================== *)
(** ** String primitives used by Analysis.js *)

Module Str.

(** [\d]: an ASCII digit. *)
Definition is_digit (c : ascii) : bool :=
  let n := nat_of_ascii c in
  ((48 <=? n) && (n <=? 57))%nat.

(** White space and line terminators among the code units below 256:
    TAB, LF, VT, FF, CR, SP and NBSP. *)
Definition is_space (c : ascii) : bool :=
  let n := nat_of_ascii c in
  ((n =? 9) || (n =? 10) || (n =? 11) || (n =? 12) || (n =? 13)
   || (n =? 32) || (n =? 160))%nat.

Fixpoint trimStart (s : string) : string :=
  match s with
  | String c s' => if is_space c then trimStart s' else s
  | EmptyString => EmptyString
  end.

Fixpoint trimEnd (s : string) : string :=
  match s with
  | String c s' =>
      match trimEnd s' with
      | EmptyString => if is_space c then EmptyString else String c EmptyString
      | t => String c t
      end
  | EmptyString => EmptyString
  end.

(** [s.trim()]. *)
Definition trim (s : string) : string := trimEnd (trimStart s).

(** [s.includes(needle)]. *)
Fixpoint includes (needle s : string) : bool :=
  if String.prefix needle s then true
  else match s with
       | String _ s' => includes needle s'
       | EmptyString => false
       end.

(** [s.split(sep)] for a separator of one code unit. *)
Fixpoint split (sep : ascii) (s : string) : list string :=
  match s with
  | EmptyString => [EmptyString]
  | String c s' =>
      if Ascii.eqb c sep then EmptyString :: split sep s'
      else match split sep s' with
           | h :: t => String c h :: t
           | [] => [String c EmptyString]
           end
  end.

(** The longest run of digits at the start of [s], and what follows it. *)
Fixpoint digits (s : string) : string * string :=
  match s with
  | String c s' =>
      if is_digit c then
        let '(d, r) := digits s' in (String c d, r)
      else (EmptyString, s)
  | EmptyString => (EmptyString, EmptyString)
  end.

(** Capture group 1 of [/(\d+(\.\d+)?)\/10/]: the integer digits and the
    digits of the optional fraction. *)
Record capture : Type := mkCapture {
  intDigits : string;
  fracDigits : option string
}.

(** The regular expression anchored at the start of [s].  The backtracking
    matcher can only succeed with both digit runs taken whole: a shorter run
    is followed by a digit, and a skipped fraction by a dot, where [/] is
    required. *)
Definition matchAt (s : string) : option capture :=
  let '(d1, r1) := digits s in
  match d1 with
  | EmptyString => None
  | _ =>
      let plain :=
        if String.prefix "/10" r1 then Some (mkCapture d1 None) else None in
      match r1 with
      | String "."%char r2 =>
          let '(d2, r3) := digits r2 in
          match d2 with
          | EmptyString => plain
          | _ => if String.prefix "/10" r3
                 then Some (mkCapture d1 (Some d2))
                 else plain
          end
      | _ => plain
      end
  end.

(** [s.match(/(\d+(\.\d+)?)\/10/)]: the leftmost position where the
    expression matches. *)
Fixpoint regexMatch (s : string) : option capture :=
  match matchAt s with
  | Some m => Some m
  | None =>
      match s with
      | String _ s' => regexMatch s'
      | EmptyString => None
      end
  end.

(** The number written by a run of decimal digits. *)
Fixpoint digitsValue (acc : N) (s : string) : N :=
  match s with
  | String c s' =>
      digitsValue (10 * acc + (N_of_ascii c - 48))%N s'
  | EmptyString => acc
  end.

Fixpoint pow10 (n : nat) : positive :=
  match n with
  | O => 1%positive
  | S n' => (10 * pow10 n')%positive
  end.

(** The decimal value of the captured numeral. *)
Definition captureDecimal (m : capture) : Q :=
  match fracDigits m with
  | None => Z.of_N (digitsValue 0 (intDigits m)) # 1
  | Some f =>
      (Z.of_N (digitsValue 0 (intDigits m)) # 1)
      + (Z.of_N (digitsValue 0 f) # pow10 (String.length f))
  end.

(** [parseFloat(match[1])]: the double nearest to the decimal value of the
    captured numeral.  A numeral of [2^1024 - 2^970] or more, which
    [parseFloat] turns into [Infinity], is outside the numbers represented
    here. *)
Definition captureValue (m : capture) : Q :=
  round64 (captureDecimal m).

(** The text of capture group 1. *)
Definition captureText (m : capture) : string :=
  match fracDigits m with
  | None => intDigits m
  | Some f => intDigits m ++ "." ++ f
  end.

(** Strings made of white space only, of digits only, without any digit,
    without line feed; strings that start with a digit. *)
Fixpoint allSpace (s : string) : bool :=
  match s with
  | String c s' => is_space c && allSpace s'
  | EmptyString => true
  end.

Fixpoint allDigits (s : string) : bool :=
  match s with
  | String c s' => is_digit c && allDigits s'
  | EmptyString => true
  end.

Fixpoint noDigit (s : string) : bool :=
  match s with
  | String c s' => negb (is_digit c) && noDigit s'
  | EmptyString => true
  end.

Fixpoint noLineFeed (s : string) : bool :=
  match s with
  | String c s' => negb (Ascii.eqb c "010"%char) && noLineFeed s'
  | EmptyString => true
  end.

Definition startsWithDigit (s : string) : bool :=
  match s with
  | String c _ => is_digit c
  | EmptyString => false
  end.

End Str.

(* ================================================================== *)
(** ** Analysis.js *)

Module Analysis.

Definition getRiskLevel (score : value) : string :=
  if ge score (Num 7) then "high"
  else if ge score (Num 4) then "medium"
  else "low".

Definition getRiskColor (score : value) : string :=
  if ge score (Num 7) then "#ff4757"
  else if ge score (Num 4) then "#ffa502"
  else "#2ed573".

Definition extractScore (line : string) : value :=
  match Str.regexMatch line with
  | Some m => Num (Str.captureValue m)
  | None => Num 0
  end.

(** The body of the [forEach] of [parseTableData]: at most one property of
    [riskScores] is assigned per line. *)
Definition scanLine (riskScores : scores) (line : string) : scores :=
  if Str.includes "Data Risk:" line then
    mkScores (extractScore line) (user_rights_score riskScores)
             (readability_score riskScores) (overall_risk riskScores)
             (termination_risk riskScores)
  else if Str.includes "User Rights:" line then
    mkScores (data_risk riskScores) (extractScore line)
             (readability_score riskScores) (overall_risk riskScores)
             (termination_risk riskScores)
  else if Str.includes "Readability:" line then
    mkScores (data_risk riskScores) (user_rights_score riskScores)
             (extractScore line) (overall_risk riskScores)
             (termination_risk riskScores)
  else if Str.includes "Overall Risk:" line then
    mkScores (data_risk riskScores) (user_rights_score riskScores)
             (readability_score riskScores) (extractScore line)
             (termination_risk riskScores)
  else riskScores.

(** [tableString.split('\n').filter(line => line.trim())]. *)
Definition tableLines (tableString : string) : list string :=
  filter (fun line => negb (String.eqb (Str.trim line) ""))
         (Str.split "010"%char tableString).

(** [parseTableData] on a string: none of its steps throws, so the [catch]
    branch is not taken. *)
Definition parseTableData (tableString : string) : analysis :=
  let lines := tableLines tableString in
  let riskScores := fold_left scanLine lines no_scores in
  mkAnalysis
    (Some riskScores)
    no_scores
    (Some (getRiskLevel (or (overall_risk riskScores) (Num 0))))
    (mkDetails None None None
       (Some "Analysis completed successfully")
       (Some ["Data collection practices analyzed"])
       (Some ["User rights assessment completed"])
       (Some ["Review the detailed risk scores above"])
       None).

(** The object literal used when [risk_scores] is missing: five properties. *)
Definition fallbackScores (a : analysis) : scores :=
  mkScores (or (data_risk (own a)) (Num 0))
           (or (user_rights_score (own a)) (Num 0))
           (or (readability_score (own a)) (Num 0))
           (or (overall_risk (own a)) (Num 0))
           (or (termination_risk (own a)) (Num 0)).

(** [None] is the [null] result; the empty string is falsy. *)
Definition formatAnalysisData (analysisData : payload) : option analysis :=
  match analysisData with
  | Missing => None
  | Table s =>
      if String.eqb s "" then None else Some (parseTableData s)
  | Object a =>
      Some (mkAnalysis
              (Some match risk_scores a with
                    | Some s => s
                    | None => fallbackScores a
                    end)
              (own a)
              (Some (text_or (risk_level a)
                       (getRiskLevel
                          (or (or (overall_risk (own a))
                                  (field overall_risk (risk_scores a)))
                              (Num 0)))))
              (rest a))
  end.

(** An entry of [riskChartData]. *)
Record bar : Type := mkBar {
  bar_name : string;
  bar_score : value;
  bar_color : string
}.

Definition riskChartData (analysis : option analysis) : list bar :=
  match analysis with
  | None => []
  | Some a =>
      let rs := risk_scores a in
      [mkBar "Data Risk" (or (field data_risk rs) (Num 0))
             (getRiskColor (or (field data_risk rs) (Num 0)));
       mkBar "User Rights" (or (field user_rights_score rs) (Num 0))
             (getRiskColor
                (sub (Num 10) (or (field user_rights_score rs) (Num 0))));
       mkBar "Termination Risk" (or (field termination_risk rs) (Num 0))
             (getRiskColor (or (field termination_risk rs) (Num 0)));
       mkBar "Readability" (or (field readability_score rs) (Num 0))
             (getRiskColor
                (sub (Num 10) (or (field readability_score rs) (Num 0))))]
  end.

(** The class given to each score card of the risk overview. *)
Definition dataRiskClass (a : analysis) : string :=
  getRiskLevel (field data_risk (risk_scores a)).

Definition userRightsClass (a : analysis) : string :=
  getRiskLevel
    (sub (Num 10) (or (field user_rights_score (risk_scores a)) (Num 0))).

Definition readabilityClass (a : analysis) : string :=
  getRiskLevel
    (sub (Num 10) (or (field readability_score (risk_scores a)) (Num 0))).

(** The state variables [analyzeCustomUrl] reads or writes. *)
Record state : Type := mkState {
  analysis_ : option analysis;
  loading : bool;
  customUrl : string;
  error_ : string
}.

(** The [catch] and [finally] blocks of [analyzeCustomUrl]. *)
Definition urlFailed (message : string) (st : state) : state :=
  mkState (analysis_ st) false (customUrl st)
          ("URL analysis failed: " ++ message)%string.

(** [analyzeCustomUrl] up to its first [await]. *)
Definition analyzeCustomUrlStart (st : state) : state * list action :=
  if String.eqb (customUrl st) "" then (st, [])
  else (mkState None true (customUrl st) "", [GetAnalyzeUrl (customUrl st)]).

(** [analyzeCustomUrl] once its request has ended with [r], in the state
    [st] of that moment, which other handlers may have changed in the
    meantime. *)
Definition analyzeCustomUrlSettle (r : reply body) (st : state) : state :=
  match r with
  | Rejected message => urlFailed message st
  | NotOk status _ =>
      urlFailed ("URL analysis failed: " ++ showNat status)%string st
  | Json (NullBody typeError) => urlFailed typeError st
  | Json (Body result) =>
      if success result then
        mkState (formatAnalysisData (result_analysis result)) false
                (customUrl st) (error_ st)
      else
        urlFailed (text_or (result_error result) "URL analysis failed") st
  end.

(** [analyzeCustomUrl] run to completion against the reply [r] of the
    request it may issue, no other handler running in between. *)
Definition analyzeCustomUrl (st : state) (r : reply body)
  : state * list action :=
  if String.eqb (customUrl st) "" then analyzeCustomUrlStart st
  else
    (analyzeCustomUrlSettle r (fst (analyzeCustomUrlStart st)),
     snd (analyzeCustomUrlStart st)).

End Analysis.

(* ================================================================== *)
(** ** Dashboard.js *)

Module Dashboard.

Record distribution : Type := mkDistribution {
  high : nat;
  medium : nat;
  low : nat
}.

(** The body of the [forEach] of [calculateRiskDistribution]. *)
Definition countRisk (d : distribution) (a : history_item) : distribution :=
  let risk := risk_score a in
  if ge risk (Num 7) then mkDistribution (S (high d)) (medium d) (low d)
  else if ge risk (Num 4) then mkDistribution (high d) (S (medium d)) (low d)
  else mkDistribution (high d) (medium d) (S (low d)).

(** [None] is an argument that is not an array. *)
Definition calculateRiskDistribution (analyses : option (list history_item))
  : distribution :=
  match analyses with
  | None => mkDistribution 0 0 0
  | Some l => fold_left countRisk l (mkDistribution 0 0 0)
  end.

(** The class of the risk badge of a recent analysis. *)
Definition riskBadgeClass (a : history_item) : string :=
  if ge (risk_score a) (Num 7) then "high"
  else if ge (risk_score a) (Num 4) then "medium"
  else "low".

(** The counters of [stats] that [fetchDashboardData] derives from the
    history list. *)
Record stats : Type := mkStats {
  totalAnalyses : nat;
  highRiskCount : nat;
  mediumRiskCount : nat;
  lowRiskCount : nat
}.

Definition statsOf (analyses : list history_item) : stats :=
  let riskDistribution := calculateRiskDistribution (Some analyses) in
  mkStats (List.length analyses) (high riskDistribution)
          (medium riskDistribution) (low riskDistribution).

(** An entry of the pie chart data. *)
Record slice : Type := mkSlice {
  slice_name : string;
  slice_value : nat;
  slice_color : string
}.

Definition riskChartData (s : option stats) : list slice :=
  match s with
  | None => []
  | Some st =>
      [mkSlice "High Risk" (highRiskCount st) "#ff4757";
       mkSlice "Medium Risk" (mediumRiskCount st) "#ffa502";
       mkSlice "Low Risk" (lowRiskCount st) "#2ed573"]
  end.

(** [riskChartData.some(item => item.value > 0)]: whether the pie chart is
    drawn. *)
Definition chartShown (s : option stats) : bool :=
  existsb (fun item => (0 <? slice_value item)%nat) (riskChartData s).

End Dashboard.

(* ================================================================== *)
(** ** History.js *)

Module History.

(** The class of the risk badge of a history entry. *)
Definition riskBadgeClass (a : history_item) : string :=
  if ge (risk_score a) (Num 7) then "high"
  else if ge (risk_score a) (Num 4) then "medium"
  else "low".

End History.

(* ================================================================== *)
(** ** Profile.js and App.js *)

Module Profile.

Record userProfile : Type := mkProfile {
  riskTolerance : string;
  dataConcerns : list string;
  location : string
}.

(** The initial profile of [App]. *)
Definition initialProfile : userProfile :=
  mkProfile "medium" ["data_collection"; "data_sharing"] "US".

(** The updater of [toggleConcern]. *)
Definition toggleConcern (concern : string) (prev : userProfile)
  : userProfile :=
  mkProfile (riskTolerance prev)
            (if existsb (String.eqb concern) (dataConcerns prev)
             then filter (fun c => negb (String.eqb c concern))
                         (dataConcerns prev)
             else dataConcerns prev ++ [concern])
            (location prev).

(** The keys [handleChange] is called with. *)
Inductive profileKey : Type :=
| riskToleranceKey
| locationKey.

Definition handleChange (key : profileKey) (v : string) (prev : userProfile)
  : userProfile :=
  match key with
  | riskToleranceKey => mkProfile v (dataConcerns prev) (location prev)
  | locationKey => mkProfile (riskTolerance prev) (dataConcerns prev) v
  end.

(** The concerns offered as check boxes. *)
Definition offeredConcerns : list string :=
  ["data_collection"; "data_sharing"; "data_retention"; "cookies";
   "third_party"].

End Profile.

(* ================================================================== *)
(** ** Vocabulary of the specification *)

Module Spec.

(** The number of history entries whose risk score falls in bucket [lvl]. *)
Definition levelCount (lvl : string) (l : list history_item) : nat :=
  List.length
    (filter (fun a => String.eqb (Comparison.getRiskLevel (risk_score a)) lvl)
            l).

(** An analysis whose only score is [overall_risk = q], inside its
    [risk_scores] object. *)
Definition withOverall (q : Q) : payload :=
  Object (mkAnalysis
            (Some (mkScores Undefined Undefined Undefined (Num q) Undefined))
            no_scores None no_details).

(** An analysis object carrying [overall_risk = q] at its top level only. *)
Definition topOverall (q : Q) : analysis :=
  mkAnalysis None (mkScores Undefined Undefined Undefined (Num q) Undefined)
             None no_details.

(** An analysis object without any property. *)
Definition emptyAnalysis : analysis :=
  mkAnalysis None no_scores None no_details.

(** Two analyses that differ in every dimension. *)
Definition riskyAnalysis : payload :=
  Object (mkAnalysis
            (Some (mkScores (Num 9) (Num 2) (Num 8) (Num 8.2) (Num 7)))
            no_scores None no_details).

Definition safeAnalysis : payload :=
  Object (mkAnalysis
            (Some (mkScores (Num 1) (Num 9) (Num 2) (Num 3.1) (Num 1)))
            no_scores None no_details).

(** The first insight says that URL 1 has the higher overall risk. *)
Definition saysUrl1Higher (ins : list template) : Prop :=
  exists v w, hd_error ins = Some (Comparison.url1Higher v w).

Definition saysUrl2Higher (ins : list template) : Prop :=
  exists v w, hd_error ins = Some (Comparison.url2Higher v w).

Definition saysSimilar (ins : list template) : Prop :=
  hd_error ins = Some Comparison.bothSimilar.

(** The overall-risk insight is chosen with tolerance [eps]. *)
Definition overallInsightRule (eps : Q) (a b : payload) : Prop :=
  forall x y : Q,
    Comparison.overallOf a = Num x ->
    Comparison.overallOf b = Num y ->
    let ins := Comparison.generateUrlInsights a b in
    (saysUrl1Higher ins <-> y + eps < x) /\
    (saysUrl2Higher ins <-> x + eps < y) /\
    (saysSimilar ins <-> Qabs (x - y) <= eps).

Definition aboutOverall (t : template) : Prop :=
  t = Comparison.bothSimilar \/
  exists v w, t = Comparison.url1Higher v w \/ t = Comparison.url2Higher v w.

Definition aboutDataRisk (t : template) : Prop :=
  t = Comparison.url1MoreData \/ t = Comparison.url2MoreData.

(** A score that is a number. *)
Definition isNumber (v : value) : Prop := exists q, v = Num q.

(** [out] is [v || 0]: [v] itself when truthy, otherwise [0]. *)
Definition zeroSubstituted (v out : value) : Prop :=
  (truthy v = true /\ out = v) \/ (truthy v = false /\ out = Num 0).

(** [out] is a number, namely [v || 0]. *)
Definition filledFrom (v out : value) : Prop :=
  zeroSubstituted v out /\ isNumber out.



(** The order of the buckets: low, medium, high; any other string counts
    as low. *)
Definition levelRank (lvl : string) : nat :=
  if String.eqb lvl "high" then 2
  else if String.eqb lvl "medium" then 1
  else 0.

(** The colour that goes with a bucket. *)
Definition levelColor (lvl : string) : string :=
  if String.eqb lvl "high" then "#ff4757"
  else if String.eqb lvl "medium" then "#ffa502"
  else "#2ed573".

(** The entry built for a response that carries no analysis object. *)
Definition zeroEntry (label customUrl : string) : analysis :=
  mkAnalysis (Some (mkScores (Num 0) (Num 0) (Num 0) (Num 0) Undefined))
             no_scores (Some "low")
             (mkDetails (Some label) (Some customUrl) None None None None
                        None None).

(** The selection reached from the empty one by toggling [ids] in turn. *)
Definition toggleAll {Id : Type}
  (Id_eq_dec : forall x y : Id, {x = y} + {x <> y}) (ids : list Id)
  : list Id :=
  fold_left (fun sel id => fst (Comparison.toggleSelected Id_eq_dec id sel))
            ids [].

End Spec.

Import Spec.

(* ================================================================== *)
(** ** Facts about the operators *)

Lemma ge_Num (x k : Q) : ge (Num x) (Num k) = true <-> k <= x.
Proof. unfold ge; simpl. apply Qle_bool_iff. Qed.

Lemma ge_Num_false (x k : Q) : ge (Num x) (Num k) = false <-> x < k.
Proof.
  unfold ge; simpl. split; intro H.
  - apply Qnot_le_lt. intro L. apply Qle_bool_iff in L. congruence.
  - destruct (Qle_bool k x) eqn:E; [|reflexivity].
    apply Qle_bool_iff in E. lra.
Qed.

Lemma gt_Num (x y : Q) : gt (Num x) (Num y) = true <-> y < x.
Proof.
  unfold gt; simpl. split; intro H.
  - apply Qnot_le_lt. intro L. apply Qle_bool_iff in L.
    rewrite L in H. discriminate.
  - destruct (Qle_bool x y) eqn:E; [|reflexivity].
    apply Qle_bool_iff in E. lra.
Qed.

Lemma gt_Num_false (x y : Q) : gt (Num x) (Num y) = false <-> x <= y.
Proof.
  unfold gt; simpl. split; intro H.
  - apply Qle_bool_iff. destruct (Qle_bool x y); [reflexivity|discriminate].
  - apply Qle_bool_iff in H. rewrite H. reflexivity.
Qed.

Lemma truthy_Num (q : Q) : truthy (Num q) = true <-> ~ q == 0.
Proof.
  simpl. split; intro H.
  - intro E. apply Qeq_bool_iff in E. rewrite E in H. discriminate.
  - destruct (Qeq_bool q 0) eqn:E; [|reflexivity].
    apply Qeq_bool_iff in E. contradiction.
Qed.

Lemma truthy_is_number (v : value) : truthy v = true -> isNumber v.
Proof. destruct v; simpl; try discriminate. intros _. now exists q. Qed.

(** [v || 0] is always a number. *)
Lemma or_zero_number (v : value) : isNumber (or v (Num 0)).
Proof.
  unfold or. destruct (truthy v) eqn:E.
  - now apply truthy_is_number.
  - now exists 0.
Qed.

Lemma or_zero_substituted (v : value) : zeroSubstituted v (or v (Num 0)).
Proof.
  unfold zeroSubstituted, or. destruct (truthy v); [left|right]; auto.
Qed.

(** [(a || b) || 0] is always a number. *)
Lemma or_or_zero_number (a b : value) : isNumber (or (or a b) (Num 0)).
Proof. apply or_zero_number. Qed.

Lemma Qle_bool_Qeq (k x y : Q) : x == y -> Qle_bool k x = Qle_bool k y.
Proof. intro E. apply Qleb_comp; [reflexivity | exact E]. Qed.

(** The bucket of a number only depends on its value. *)
Lemma getRiskLevel_Qeq (x y : Q) :
  x == y -> Comparison.getRiskLevel (Num x) = Comparison.getRiskLevel (Num y).
Proof.
  intro E. unfold Comparison.getRiskLevel, ge; simpl.
  now rewrite (Qle_bool_Qeq 7 x y E), (Qle_bool_Qeq 4 x y E).
Qed.

Lemma getRiskColor_Qeq (x y : Q) :
  x == y -> Analysis.getRiskColor (Num x) = Analysis.getRiskColor (Num y).
Proof.
  intro E. unfold Analysis.getRiskColor, ge; simpl.
  now rewrite (Qle_bool_Qeq 7 x y E), (Qle_bool_Qeq 4 x y E).
Qed.

Lemma getRiskLevel_high (s : Q) :
  Comparison.getRiskLevel (Num s) = "high" <-> 7 <= s.
Proof.
  unfold Comparison.getRiskLevel.
  destruct (ge (Num s) (Num 7)) eqn:E7.
  - apply ge_Num in E7. tauto.
  - apply ge_Num_false in E7.
    destruct (ge (Num s) (Num 4)); split; try discriminate; intro; lra.
Qed.

Lemma getRiskLevel_medium (s : Q) :
  Comparison.getRiskLevel (Num s) = "medium" <-> 4 <= s /\ s < 7.
Proof.
  unfold Comparison.getRiskLevel.
  destruct (ge (Num s) (Num 7)) eqn:E7.
  - apply ge_Num in E7. split; [discriminate|intro; lra].
  - apply ge_Num_false in E7.
    destruct (ge (Num s) (Num 4)) eqn:E4.
    + apply ge_Num in E4. tauto.
    + apply ge_Num_false in E4. split; [discriminate|intro; lra].
Qed.

Lemma getRiskLevel_low (s : Q) :
  Comparison.getRiskLevel (Num s) = "low" <-> s < 4.
Proof.
  unfold Comparison.getRiskLevel.
  destruct (ge (Num s) (Num 7)) eqn:E7.
  - apply ge_Num in E7. split; [discriminate|intro; lra].
  - apply ge_Num_false in E7.
    destruct (ge (Num s) (Num 4)) eqn:E4.
    + apply ge_Num in E4. split; [discriminate|intro; lra].
    + apply ge_Num_false in E4. tauto.
Qed.

Lemma countRisk_level (d : Dashboard.distribution) (a : history_item) :
  Dashboard.countRisk d a =
  let lvl := Comparison.getRiskLevel (risk_score a) in
  Dashboard.mkDistribution
    (Dashboard.high d + if String.eqb lvl "high" then 1 else 0)
    (Dashboard.medium d + if String.eqb lvl "medium" then 1 else 0)
    (Dashboard.low d + if String.eqb lvl "low" then 1 else 0).
Proof.
  unfold Dashboard.countRisk, Comparison.getRiskLevel.
  destruct (ge (risk_score a) (Num 7)); [|destruct (ge (risk_score a) (Num 4))];
    simpl; f_equal; lia.
Qed.

Lemma fold_countRisk (l : list history_item) (d : Dashboard.distribution) :
  fold_left Dashboard.countRisk l d =
  Dashboard.mkDistribution
    (Dashboard.high d + levelCount "high" l)
    (Dashboard.medium d + levelCount "medium" l)
    (Dashboard.low d + levelCount "low" l).
Proof.
  revert d. induction l as [|a l IH]; intro d.
  - destruct d; simpl. unfold levelCount; simpl. f_equal; lia.
  - simpl fold_left. rewrite IH, countRisk_level.
    unfold levelCount; simpl.
    destruct (String.eqb _ "high"), (String.eqb _ "medium"),
      (String.eqb _ "low"); simpl; f_equal; lia.
Qed.

(* ================================================================== *)
(** ** Rounding to the nearest double *)

Lemma floor_bounds (x : Q) :
  inject_Z (Qfloor x) <= x /\ x < inject_Z (Qfloor x) + 1.
Proof.
  split; [apply Qfloor_le|].
  pose proof (Qlt_floor x) as H. rewrite inject_Z_plus in H. exact H.
Qed.

Lemma roundHalfEven_floor (x : Q) :
  (Qfloor x <= roundHalfEven x <= Qfloor x + 1)%Z.
Proof.
  unfold roundHalfEven.
  destruct (Qcompare _ _); [destruct (Z.even _)| |]; lia.
Qed.

Lemma roundHalfEven_bounds (x : Q) :
  inject_Z (roundHalfEven x) - (1 # 2) <= x /\
  x <= inject_Z (roundHalfEven x) + (1 # 2).
Proof.
  unfold roundHalfEven. destruct (floor_bounds x) as [L U].
  destruct (Qcompare_spec (x - inject_Z (Qfloor x)) (1 # 2)) as [E|E|E];
    [destruct (Z.even _)| |]; rewrite ?inject_Z_plus;
    change (inject_Z 1) with 1; split; lra.
Qed.

Lemma roundHalfEven_ge (n : Z) (x : Q) :
  inject_Z n <= x -> (n <= roundHalfEven x)%Z.
Proof.
  intro H. apply Qfloor_resp_le in H. rewrite Qfloor_Z in H.
  pose proof (roundHalfEven_floor x). lia.
Qed.

Lemma roundHalfEven_Z (z : Z) : roundHalfEven (inject_Z z) = z.
Proof.
  unfold roundHalfEven. rewrite Qfloor_Z.
  destruct (Qcompare_spec (inject_Z z - inject_Z z) (1 # 2)) as [C|C|C];
    [|reflexivity|]; exfalso; lra.
Qed.

Lemma roundHalfEven_ge_even (n : Z) (x : Q) :
  Z.even n = true ->
  ((n <= roundHalfEven x)%Z <-> inject_Z n - (1 # 2) <= x).
Proof.
  intro Ev. split.
  - intro H. rewrite Zle_Qle in H.
    destruct (roundHalfEven_bounds x) as [L _]. lra.
  - intro H. destruct (floor_bounds x) as [L U].
    assert (F : (n - 1 <= Qfloor x)%Z).
    { destruct (Z.le_gt_cases (n - 1) (Qfloor x)) as [A|A]; [exact A|].
      assert (B : (Qfloor x + 2 <= n)%Z) by lia.
      rewrite Zle_Qle, inject_Z_plus in B.
      change (inject_Z 2) with 2 in B. exfalso. lra. }
    destruct (Z.eq_dec (Qfloor x) (n - 1)) as [E|NE].
    + unfold roundHalfEven. rewrite E.
      assert (Od : Z.even (n - 1) = false).
      { replace n with (Z.succ (n - 1)) in Ev by lia.
        rewrite Z.even_succ in Ev. rewrite <- Z.negb_odd, Ev. reflexivity. }
      rewrite Od.
      destruct (Qcompare_spec (x - inject_Z (n - 1)) (1 # 2)) as [C|C|C];
        try lia.
      exfalso. rewrite <- E in C.
      assert (N : n = (Qfloor x + 1)%Z) by lia.
      rewrite N, inject_Z_plus in H. change (inject_Z 1) with 1 in H. lra.
    + pose proof (roundHalfEven_floor x). lia.
Qed.

Lemma pow2_pos (u : Z) : 0 < 2 ^ u.
Proof. apply Qpower_0_lt. reflexivity. Qed.

Lemma pow2_inv (u : Z) : 2 ^ (- u) * 2 ^ u == 1.
Proof.
  rewrite <- Qpower_plus by discriminate.
  replace (- u + u)%Z with 0%Z by lia. reflexivity.
Qed.

Lemma pow2_le_one (u : Z) : (u <= 0)%Z -> 2 ^ u <= 1.
Proof.
  intro H. change 1 with (2 ^ 0). apply Qpower_le_compat_l; [exact H|].
  discriminate.
Qed.

Section Scaled.

(** Rounding [q] to a multiple of [2^u]. *)
Variable u : Z.
Variable q : Q.

Lemma scaled_back : q * 2 ^ (- u) * 2 ^ u == q.
Proof. rewrite <- Qmult_assoc, pow2_inv. ring. Qed.

Lemma scaled_error :
  inject_Z (roundHalfEven (q * 2 ^ (- u))) * 2 ^ u - (1 # 2) * 2 ^ u <= q /\
  q <= inject_Z (roundHalfEven (q * 2 ^ (- u))) * 2 ^ u + (1 # 2) * 2 ^ u.
Proof.
  destruct (roundHalfEven_bounds (q * 2 ^ (- u))) as [L U].
  pose proof (pow2_pos u) as P. pose proof scaled_back as B.
  split.
  - apply (Qmult_le_compat_r _ _ (2 ^ u)) in L; [|lra].
    rewrite B in L. lra.
  - apply (Qmult_le_compat_r _ _ (2 ^ u)) in U; [|lra].
    rewrite B in U. lra.
Qed.

Lemma scaled_ge (n : Z) :
  inject_Z n * 2 ^ u <= q ->
  inject_Z n * 2 ^ u <= inject_Z (roundHalfEven (q * 2 ^ (- u))) * 2 ^ u.
Proof.
  intro H. apply Qmult_le_compat_r; [|apply Qlt_le_weak, pow2_pos].
  rewrite <- Zle_Qle. apply roundHalfEven_ge.
  apply (Qmult_le_r _ _ (2 ^ u)); [apply pow2_pos|].
  now rewrite scaled_back.
Qed.

Lemma scaled_ge_even (n : Z) :
  Z.even n = true ->
  (inject_Z n * 2 ^ u <= inject_Z (roundHalfEven (q * 2 ^ (- u))) * 2 ^ u
   <-> (inject_Z n - (1 # 2)) * 2 ^ u <= q).
Proof.
  intro Ev.
  rewrite (Qmult_le_r _ _ (2 ^ u)) by apply pow2_pos.
  rewrite <- Zle_Qle, (roundHalfEven_ge_even n _ Ev).
  rewrite <- (Qmult_le_r _ _ (2 ^ u)) by apply pow2_pos.
  now rewrite scaled_back.
Qed.

End Scaled.

Lemma roundPositive_nonneg (q : Q) : 0 <= q -> 0 <= roundPositive q.
Proof.
  intro H. unfold roundPositive.
  pose proof (scaled_ge (ulpExponent q) q 0) as G.
  change (inject_Z 0) with 0 in G. rewrite Qmult_0_l in G. now apply G.
Qed.

Lemma roundHalfEven_comp (x y : Q) :
  x == y -> roundHalfEven x = roundHalfEven y.
Proof.
  intro E. unfold roundHalfEven. rewrite (Qfloor_comp x y E).
  assert (C : Qcompare (x - inject_Z (Qfloor y)) (1 # 2)
              = Qcompare (y - inject_Z (Qfloor y)) (1 # 2)).
  { apply Qcompare_comp; [rewrite E|]; reflexivity. }
  now rewrite C.
Qed.

Lemma floor_ge_one (q : Q) : 1 <= q -> (1 <= Qfloor q)%Z.
Proof.
  intro H. apply Qfloor_resp_le in H. exact H.
Qed.

Lemma floor_lt (q : Q) (n : Z) : q < inject_Z n -> (Qfloor q < n)%Z.
Proof.
  intro H. rewrite Zlt_Qlt. pose proof (Qfloor_le q). lra.
Qed.

Lemma floor_ge (q : Q) (n : Z) : inject_Z n <= q -> (n <= Qfloor q)%Z.
Proof.
  intro H. apply Qfloor_resp_le in H. now rewrite Qfloor_Z in H.
Qed.

Lemma binade_ge_one (q : Q) : 1 <= q -> binade q = Z.log2 (Qfloor q).
Proof.
  intro H. unfold binade. apply Qle_bool_iff in H. now rewrite H.
Qed.

Lemma ulpExponent_ge_one (q : Q) :
  1 <= q -> ulpExponent q = (Z.log2 (Qfloor q) - 52)%Z.
Proof.
  intro H. unfold ulpExponent. rewrite (binade_ge_one q H).
  pose proof (Z.log2_nonneg (Qfloor q)). lia.
Qed.

Lemma ulpExponent_small (q : Q) : q < 1 -> (ulpExponent q <= 0)%Z.
Proof.
  intro H. unfold ulpExponent, binade.
  destruct (Qle_bool 1 q) eqn:E; [apply Qle_bool_iff in E; lra|].
  pose proof (Z.log2_nonneg (Qfloor (/ q))).
  destruct (Qeq_bool _ _); lia.
Qed.

Lemma ulpExponent_1_2 (q : Q) : 1 <= q -> q < 2 -> ulpExponent q = (-52)%Z.
Proof.
  intros L U. rewrite (ulpExponent_ge_one q L).
  pose proof (floor_ge_one q L). pose proof (floor_lt q 2 U).
  replace (Qfloor q) with 1%Z by lia. reflexivity.
Qed.

Lemma ulpExponent_2_4 (q : Q) : 2 <= q -> q < 4 -> ulpExponent q = (-51)%Z.
Proof.
  intros L U. rewrite (ulpExponent_ge_one q) by lra.
  pose proof (floor_ge q 2 L). pose proof (floor_lt q 4 U).
  assert (C : Qfloor q = 2%Z \/ Qfloor q = 3%Z) by lia.
  destruct C as [-> | ->]; reflexivity.
Qed.

Lemma ulpExponent_4_8 (q : Q) : 4 <= q -> q < 8 -> ulpExponent q = (-50)%Z.
Proof.
  intros L U. rewrite (ulpExponent_ge_one q) by lra.
  pose proof (floor_ge q 4 L). pose proof (floor_lt q 8 U).
  assert (C : Qfloor q = 4%Z \/ Qfloor q = 5%Z \/ Qfloor q = 6%Z
              \/ Qfloor q = 7%Z) by lia.
  destruct C as [-> | [-> | [-> | ->]]]; reflexivity.
Qed.

Lemma pow2_Z (e : Z) : (0 <= e)%Z -> 2 ^ e == inject_Z (2 ^ e).
Proof. intro H. now rewrite Zpower_Qpower. Qed.

(** Above 1 the unit in the last place is at most [q / 2^52]. *)
Lemma ulp_le (q : Q) : 1 <= q -> 2 ^ ulpExponent q <= q * 2 ^ (-52).
Proof.
  intro H. rewrite (ulpExponent_ge_one q H).
  pose proof (floor_ge_one q H) as F.
  pose proof (Z.log2_nonneg (Qfloor q)) as N.
  destruct (Z.log2_spec (Qfloor q)) as [S _]; [lia|].
  unfold Z.sub. rewrite Qpower_plus by discriminate.
  rewrite (pow2_Z _ N).
  apply Qmult_le_compat_r; [|apply Qlt_le_weak, pow2_pos].
  rewrite Zle_Qle in S. pose proof (Qfloor_le q). lra.
Qed.

(** The relative error of rounding above 1 is at most [2^-53]. *)
Lemma roundPositive_large (q : Q) :
  1 <= q -> q * (1 - 2 ^ (-53)) <= roundPositive q.
Proof.
  intro H. unfold roundPositive.
  destruct (scaled_error (ulpExponent q) q) as [_ U].
  pose proof (ulp_le q H) as L.
  change (2 ^ (-52)) with (1 # 4503599627370496) in L.
  change (2 ^ (-53)) with (1 # 9007199254740992).
  lra.
Qed.

Lemma roundPositive_upper (q : Q) :
  (ulpExponent q <= 0)%Z -> roundPositive q <= q + (1 # 2).
Proof.
  intro H. unfold roundPositive.
  destruct (scaled_error (ulpExponent q) q) as [L _].
  pose proof (pow2_le_one _ H). lra.
Qed.

Lemma ulpExponent_below_8 (q : Q) : q < 8 -> (ulpExponent q <= 0)%Z.
Proof.
  intro U. destruct (Qlt_le_dec q 1) as [A|A];
    [now apply ulpExponent_small|].
  destruct (Qlt_le_dec q 2) as [B|B];
    [rewrite ulpExponent_1_2 by assumption; lia|].
  destruct (Qlt_le_dec q 4) as [C|C];
    [rewrite ulpExponent_2_4 by assumption; lia|].
  rewrite ulpExponent_4_8 by assumption. lia.
Qed.

Lemma round64_nonpos (q : Q) : q <= 0 -> round64 q <= 0.
Proof.
  intro H. unfold round64.
  destruct (Qcompare_spec q 0) as [E|L|G]; [lra| |lra].
  rewrite Qred_correct.
  assert (0 <= roundPositive (- q)) by (apply roundPositive_nonneg; lra).
  lra.
Qed.


Lemma round64_positive (q : Q) : 0 < q -> round64 q == roundPositive q.
Proof.
  intro H. unfold round64.
  destruct (Qcompare_spec q 0) as [E|L|G]; [lra|lra|].
  apply Qred_correct.
Qed.

(** The doubles from 7 on are the images of the reals from [7 - 2^-51]. *)
Lemma round64_ge_7 (q : Q) :
  7 <= round64 q <-> 7 - (1 # 2251799813685248) <= q.
Proof.
  destruct (Qlt_le_dec 0 q) as [P|NP].
  - rewrite (round64_positive q P).
    destruct (Qlt_le_dec q 4) as [A|A].
    + pose proof (roundPositive_upper q (ulpExponent_below_8 q ltac:(lra))).
      split; intro; lra.
    + destruct (Qlt_le_dec q 8) as [B|B].
      * unfold roundPositive. rewrite (ulpExponent_4_8 q A B).
        pose proof (scaled_ge_even (-50) q 7881299347898368 eq_refl) as S.
        assert (E1 : inject_Z 7881299347898368 * 2 ^ (-50) == 7)
          by reflexivity.
        assert (E2 : (inject_Z 7881299347898368 - (1 # 2)) * 2 ^ (-50)
                     == 7 - (1 # 2251799813685248)) by reflexivity.
        rewrite E1, E2 in S. exact S.
      * pose proof (roundPositive_large q ltac:(lra)) as L.
        change (2 ^ (-53)) with (1 # 9007199254740992) in L.
        split; intro; lra.
  - pose proof (round64_nonpos q NP). split; intro; lra.
Qed.

(** The doubles from 4 on are the images of the reals from [4 - 2^-52]. *)
Lemma round64_ge_4 (q : Q) :
  4 <= round64 q <-> 4 - (1 # 4503599627370496) <= q.
Proof.
  destruct (Qlt_le_dec 0 q) as [P|NP].
  - rewrite (round64_positive q P).
    destruct (Qlt_le_dec q 2) as [A|A].
    + pose proof (roundPositive_upper q (ulpExponent_below_8 q ltac:(lra))).
      split; intro; lra.
    + destruct (Qlt_le_dec q 4) as [B|B].
      * unfold roundPositive. rewrite (ulpExponent_2_4 q A B).
        pose proof (scaled_ge_even (-51) q 9007199254740992 eq_refl) as S.
        assert (E1 : inject_Z 9007199254740992 * 2 ^ (-51) == 4)
          by reflexivity.
        assert (E2 : (inject_Z 9007199254740992 - (1 # 2)) * 2 ^ (-51)
                     == 4 - (1 # 4503599627370496)) by reflexivity.
        rewrite E1, E2 in S. exact S.
      * destruct (Qlt_le_dec q 8) as [C|C].
        -- unfold roundPositive. rewrite (ulpExponent_4_8 q B C).
           pose proof (scaled_ge (-50) q 4503599627370496) as S.
           assert (E1 : inject_Z 4503599627370496 * 2 ^ (-50) == 4)
             by reflexivity.
           rewrite E1 in S. split; intro; [lra|]. apply S. exact B.
        -- pose proof (roundPositive_large q ltac:(lra)) as L.
           change (2 ^ (-53)) with (1 # 9007199254740992) in L.
           split; intro; lra.
  - pose proof (round64_nonpos q NP). split; intro; lra.
Qed.

Lemma Qred_inject_Z (n : Z) : Qred (inject_Z n) = inject_Z n.
Proof.
  unfold Qred, inject_Z.
  pose proof (Z.ggcd_gcd n 1) as G.
  pose proof (Z.ggcd_correct_divisors n 1) as D.
  destruct (Z.ggcd n 1) as [g [a b]]. simpl in *.
  rewrite Z.gcd_1_r in G. subst g. destruct D as [Da Db].
  replace a with n by lia. replace b with 1%Z by lia. reflexivity.
Qed.

Lemma roundPositive_integer (n : Z) :
  (0 < n < 2 ^ 53)%Z -> roundPositive (inject_Z n) == inject_Z n.
Proof.
  intros [L U]. unfold roundPositive.
  assert (One : 1 <= inject_Z n).
  { change 1 with (inject_Z 1). rewrite <- Zle_Qle. lia. }
  rewrite (ulpExponent_ge_one _ One), Qfloor_Z.
  assert (E : (Z.log2 n < 53)%Z) by (apply Z.log2_lt_pow2; lia).
  pose proof (Z.log2_nonneg n) as N.
  set (e := Z.log2 n) in *.
  replace (- (e - 52))%Z with (52 - e)%Z by lia.
  rewrite (roundHalfEven_comp _ (inject_Z (n * 2 ^ (52 - e)))).
  - rewrite roundHalfEven_Z, inject_Z_mult, <- (pow2_Z (52 - e)) by lia.
    rewrite <- Qmult_assoc.
    replace (52 - e)%Z with (- (e - 52))%Z by lia.
    rewrite pow2_inv. ring.
  - rewrite inject_Z_mult, <- (pow2_Z (52 - e)) by lia. reflexivity.
Qed.

Lemma round64_integer (n : Z) :
  (0 <= n < 2 ^ 53)%Z -> round64 (inject_Z n) = inject_Z n.
Proof.
  intros [L U]. destruct (Z.eq_dec n 0) as [->|NZ]; [reflexivity|].
  unfold round64.
  assert (P : 0 < inject_Z n).
  { change 0 with (inject_Z 0). rewrite <- Zlt_Qlt. lia. }
  destruct (Qcompare_spec (inject_Z n) 0) as [A|A|A]; [lra|lra|].
  rewrite <- (Qred_inject_Z n) at 2. apply Qred_complete.
  apply roundPositive_integer. lia.
Qed.

(* ================================================================== *)
(** ** Risk bucketing *)

(** C1: for every numeric score [s], [getRiskLevel] returns "high" iff
    [7 <= s], "medium" iff [4 <= s < 7] and "low" iff [s < 4], the lower
    bound of each bucket being inclusive (7.0 is high, 6.999 medium, 4.0
    medium, 3.999 low); the same bucketing is what every call site applies:
    the [getRiskLevel] of the analysis view, the risk level of a comparison
    entry, the risk distribution of the dashboard, and the risk badges of the
    dashboard and of the history. *)
Theorem C1_risk_level_bucketing :
  (forall s : Q,
      (Comparison.getRiskLevel (Num s) = "high" <-> 7 <= s) /\
      (Comparison.getRiskLevel (Num s) = "medium" <-> 4 <= s /\ s < 7) /\
      (Comparison.getRiskLevel (Num s) = "low" <-> s < 4)) /\
  (Comparison.getRiskLevel (Num 7.0) = "high" /\
   Comparison.getRiskLevel (Num 6.999) = "medium" /\
   Comparison.getRiskLevel (Num 4.0) = "medium" /\
   Comparison.getRiskLevel (Num 3.999) = "low") /\
  (forall v : value, Analysis.getRiskLevel v = Comparison.getRiskLevel v) /\
  (forall (s : Q) (label customUrl : string),
      risk_level (Comparison.urlEntry label customUrl (withOverall s))
      = Some (Comparison.getRiskLevel (Num s))) /\
  (forall s : Q,
      risk_level (Comparison.formatComp (topOverall s))
      = Some (Comparison.getRiskLevel (Num s))) /\
  (forall l : list history_item,
      Dashboard.calculateRiskDistribution (Some l)
      = Dashboard.mkDistribution (levelCount "high" l)
                                 (levelCount "medium" l)
                                 (levelCount "low" l)) /\
  (forall a : history_item,
      Dashboard.riskBadgeClass a = Comparison.getRiskLevel (risk_score a)) /\
  (forall a : history_item,
      History.riskBadgeClass a = Comparison.getRiskLevel (risk_score a)).
Proof.
  split; [|split; [|split; [|split; [|split; [|split; [|split]]]]]].
  - intro s. split; [apply getRiskLevel_high|].
    split; [apply getRiskLevel_medium | apply getRiskLevel_low].
  - repeat split; reflexivity.
  - reflexivity.
  - intros s label customUrl.
    unfold Comparison.urlEntry, withOverall, or; simpl.
    destruct (Qeq_bool s 0) eqn:E; simpl; [|reflexivity].
    apply Qeq_bool_iff in E. f_equal. symmetry. now apply getRiskLevel_Qeq.
  - intro s.
    unfold Comparison.formatComp, topOverall, or; simpl.
    destruct (Qeq_bool s 0) eqn:E; simpl; [|rewrite E; reflexivity].
    apply Qeq_bool_iff in E. f_equal. symmetry. now apply getRiskLevel_Qeq.
  - intro l. unfold Dashboard.calculateRiskDistribution.
    rewrite fold_countRisk. reflexivity.
  - reflexivity.
  - reflexivity.
Qed.

(* ================================================================== *)
(** ** Insights of a URL comparison *)

Lemma overallOf_number (a : payload) : isNumber (Comparison.overallOf a).
Proof. apply or_zero_number. Qed.

Lemma dataRiskOf_number (a : payload) : isNumber (Comparison.dataRiskOf a).
Proof. apply or_zero_number. Qed.

(** The insight list is the overall-risk insight followed by at most one
    data-risk insight. *)
Lemma generateUrlInsights_shape (a b : payload) :
  Comparison.generateUrlInsights a b =
  (if gt (Comparison.overallOf a) (Comparison.overallOf b)
   then Comparison.url1Higher (Comparison.overallOf a) (Comparison.overallOf b)
   else if gt (Comparison.overallOf b) (Comparison.overallOf a)
   then Comparison.url2Higher (Comparison.overallOf a) (Comparison.overallOf b)
   else Comparison.bothSimilar)
  :: (if gt (Comparison.dataRiskOf a) (Comparison.dataRiskOf b)
      then [Comparison.url1MoreData]
      else if gt (Comparison.dataRiskOf b) (Comparison.dataRiskOf a)
      then [Comparison.url2MoreData]
      else []).
Proof.
  unfold Comparison.generateUrlInsights.
  destruct (gt (Comparison.overallOf a) (Comparison.overallOf b));
    [|destruct (gt (Comparison.overallOf b) (Comparison.overallOf a))];
    (destruct (gt (Comparison.dataRiskOf a) (Comparison.dataRiskOf b));
     [|destruct (gt (Comparison.dataRiskOf b) (Comparison.dataRiskOf a))]);
    reflexivity.
Qed.

(** With tolerance 0 the rule holds for every pair of analyses. *)
Lemma overall_insight_rule_zero (a b : payload) : overallInsightRule 0 a b.
Proof.
  intros x y Ha Hb ins. subst ins.
  rewrite generateUrlInsights_shape, Ha, Hb.
  unfold saysUrl1Higher, saysUrl2Higher, saysSimilar.
  destruct (gt (Num x) (Num y)) eqn:G1.
  - apply gt_Num in G1. simpl hd_error.
    split; [|split].
    + split; [intros _; lra|]. intros _. now exists (Num x), (Num y).
    + split; [|intro; lra]. intros (v & w & E). discriminate E.
    + split; [discriminate|]. intro A.
      apply Qabs_Qle_condition in A. lra.
  - apply gt_Num_false in G1.
    destruct (gt (Num y) (Num x)) eqn:G2.
    + apply gt_Num in G2. simpl hd_error.
      split; [|split].
      * split; [|intro; lra]. intros (v & w & E). discriminate E.
      * split; [intros _; lra|]. intros _. now exists (Num x), (Num y).
      * split; [discriminate|]. intro A.
        apply Qabs_Qle_condition in A. lra.
    + apply gt_Num_false in G2. simpl hd_error.
      split; [|split].
      * split; [|intro; lra]. intros (v & w & E). discriminate E.
      * split; [|intro; lra]. intros (v & w & E). discriminate E.
      * split; [|reflexivity]. intros _.
        apply Qabs_Qle_condition. lra.
Qed.

(** C2, as the code has it: the overall-risk insight says that URL 1 is
    higher iff its overall risk is strictly greater, that URL 2 is higher iff
    its overall risk is strictly greater, and that the risks are similar iff
    the two are equal: the comparison is exact, without the tolerance
    0.05. *)
Theorem C2_overall_insight_exact_comparison (a b : payload) (x y : Q) :
  Comparison.overallOf a = Num x ->
  Comparison.overallOf b = Num y ->
  (saysUrl1Higher (Comparison.generateUrlInsights a b) <-> y < x) /\
  (saysUrl2Higher (Comparison.generateUrlInsights a b) <-> x < y) /\
  (saysSimilar (Comparison.generateUrlInsights a b) <-> x == y).
Proof.
  intros Ha Hb.
  destruct (overall_insight_rule_zero a b x y Ha Hb) as (H1 & H2 & H3).
  split; [|split].
  - rewrite H1. split; intro; lra.
  - rewrite H2. split; intro; lra.
  - rewrite H3. rewrite Qabs_Qle_condition. split; intro; lra.
Qed.

Lemma C2_overall_insight_exact_comparison_witness :
  (saysUrl1Higher
     (Comparison.generateUrlInsights (withOverall 8.2) (withOverall 3.1))
   <-> 3.1 < 8.2) /\
  (saysUrl2Higher
     (Comparison.generateUrlInsights (withOverall 8.2) (withOverall 3.1))
   <-> 8.2 < 3.1) /\
  (saysSimilar
     (Comparison.generateUrlInsights (withOverall 8.2) (withOverall 3.1))
   <-> 8.2 == 3.1).
Proof.
  apply (C2_overall_insight_exact_comparison
           (withOverall 8.2) (withOverall 3.1)); reflexivity.
Defined.

(** With overall risks 5.03125 and 5, which differ by less than 0.05, the
    insight says that URL 1 is higher, not that the risks are similar. *)
Lemma C2_counterexample :
  Comparison.generateUrlInsights (withOverall (161 # 32)) (withOverall 5)
  = [Comparison.url1Higher (Num (161 # 32)) (Num 5)] /\
  ~ overallInsightRule 0.05 (withOverall (161 # 32)) (withOverall 5).
Proof.
  split; [reflexivity|].
  intro H. destruct (H (161 # 32) 5 eq_refl eq_refl) as [H1 _].
  assert (S : saysUrl1Higher
                (Comparison.generateUrlInsights (withOverall (161 # 32))
                                                (withOverall 5)))
    by (now exists (Num (161 # 32)), (Num 5)).
  apply H1 in S. revert S. unfold Qlt; simpl. lia.
Qed.

(** C6: when the overall risks differ, the overall-risk insight names the
    side of higher risk first and lists both values in parentheses, the
    higher one first. *)
Theorem C6_higher_side_and_value_first (a b : payload) (x y : Q) :
  Comparison.overallOf a = Num x ->
  Comparison.overallOf b = Num y ->
  ~ x == y ->
  (y < x /\
   hd_error (Comparison.generateUrlInsights a b)
   = Some [Lit "URL 1 has higher overall risk than URL 2 (";
           Val (Num x); Lit " vs "; Val (Num y); Lit ")"]) \/
  (x < y /\
   hd_error (Comparison.generateUrlInsights a b)
   = Some [Lit "URL 2 has higher overall risk than URL 1 (";
           Val (Num y); Lit " vs "; Val (Num x); Lit ")"]).
Proof.
  intros Ha Hb Hne.
  rewrite generateUrlInsights_shape, Ha, Hb.
  destruct (gt (Num x) (Num y)) eqn:G1.
  - apply gt_Num in G1. left. split; [exact G1|reflexivity].
  - apply gt_Num_false in G1.
    destruct (gt (Num y) (Num x)) eqn:G2.
    + apply gt_Num in G2. right. split; [exact G2|reflexivity].
    + apply gt_Num_false in G2. exfalso. apply Hne. lra.
Qed.

(** The scenario of the specification: overall risks 8.2 and 3.1. *)
Lemma C6_higher_side_and_value_first_witness :
  (3.1 < 8.2 /\
   hd_error (Comparison.generateUrlInsights (withOverall 8.2)
                                            (withOverall 3.1))
   = Some [Lit "URL 1 has higher overall risk than URL 2 (";
           Val (Num 8.2); Lit " vs "; Val (Num 3.1); Lit ")"]) \/
  (8.2 < 3.1 /\
   hd_error (Comparison.generateUrlInsights (withOverall 8.2)
                                            (withOverall 3.1))
   = Some [Lit "URL 2 has higher overall risk than URL 1 (";
           Val (Num 3.1); Lit " vs "; Val (Num 8.2); Lit ")"]).
Proof.
  apply (C6_higher_side_and_value_first (withOverall 8.2) (withOverall 3.1));
    [reflexivity | reflexivity |].
  unfold Qeq; simpl. lia.
Defined.

(** C5, as the code has it: the overall-risk insight always comes first; it
    is followed by a data-risk insight exactly when the two data risks
    differ, and by nothing else, so that the list has one or two entries and
    none about user rights, readability or termination. *)
Theorem C5_overall_then_data_risk_only (a b : payload) :
  exists o : template,
    aboutOverall o /\
    ((Comparison.generateUrlInsights a b = [o] /\
      gt (Comparison.dataRiskOf a) (Comparison.dataRiskOf b) = false /\
      gt (Comparison.dataRiskOf b) (Comparison.dataRiskOf a) = false) \/
     (exists d : template,
         aboutDataRisk d /\
         Comparison.generateUrlInsights a b = [o; d] /\
         (gt (Comparison.dataRiskOf a) (Comparison.dataRiskOf b) = true \/
          gt (Comparison.dataRiskOf b) (Comparison.dataRiskOf a) = true))).
Proof.
  rewrite generateUrlInsights_shape.
  match goal with
  | |- context [ ?h :: (if _ then _ else _) ] => exists h
  end.
  split.
  - unfold aboutOverall.
    destruct (gt (Comparison.overallOf a) (Comparison.overallOf b));
      [|destruct (gt (Comparison.overallOf b) (Comparison.overallOf a))].
    + right. eexists; eexists. left. reflexivity.
    + right. eexists; eexists. right. reflexivity.
    + left. reflexivity.
  - unfold aboutDataRisk.
    destruct (gt (Comparison.dataRiskOf a) (Comparison.dataRiskOf b)) eqn:D1;
      [|destruct (gt (Comparison.dataRiskOf b) (Comparison.dataRiskOf a))
          eqn:D2].
    + right. exists Comparison.url1MoreData. auto.
    + right. exists Comparison.url2MoreData. auto.
    + left. auto.
Qed.

(** Two analyses that differ in every dimension yield two insights, not
    five. *)
Lemma C5_counterexample :
  Comparison.generateUrlInsights riskyAnalysis safeAnalysis
  = [Comparison.url1Higher (Num 8.2) (Num 3.1); Comparison.url1MoreData] /\
  List.length (Comparison.generateUrlInsights riskyAnalysis safeAnalysis)
  <> 5%nat.
Proof. split; [reflexivity|]. simpl. discriminate. Qed.

(* ================================================================== *)
(** ** Axes on which a higher score is better *)

Lemma binade_comp (x y : Q) : x == y -> binade x = binade y.
Proof.
  intro E. unfold binade.
  rewrite (Qle_bool_Qeq 1 x y E), (Qfloor_comp x y E).
  assert (I : / x == / y) by now rewrite E.
  rewrite (Qfloor_comp _ _ I).
  assert (B : Qeq_bool (x * 2 ^ Z.log2 (Qfloor (/ y))) 1
              = Qeq_bool (y * 2 ^ Z.log2 (Qfloor (/ y))) 1).
  { apply Qeqb_comp; [now rewrite E|reflexivity]. }
  now rewrite B.
Qed.

Lemma roundPositive_comp (x y : Q) :
  x == y -> roundPositive x == roundPositive y.
Proof.
  intro E. unfold roundPositive, ulpExponent.
  rewrite (binade_comp x y E).
  rewrite (roundHalfEven_comp
             (x * 2 ^ (- Z.max (binade y - 52) (-1074)))
             (y * 2 ^ (- Z.max (binade y - 52) (-1074))))
    by now rewrite E.
  reflexivity.
Qed.

(** Equal rationals have the same nearest double, as a fraction. *)
Lemma round64_comp (x y : Q) : x == y -> round64 x = round64 y.
Proof.
  intro E. unfold round64.
  assert (C : Qcompare x 0 = Qcompare y 0)
    by (apply Qcompare_comp; [exact E|reflexivity]).
  rewrite C. destruct (Qcompare y 0); [reflexivity| |];
    apply Qred_complete.
  - apply Qopp_comp, roundPositive_comp. now rewrite E.
  - now apply roundPositive_comp.
Qed.

(** [10 - (s || 0)] is [10 - s]. *)
Lemma inverted_or_zero (s : Q) :
  sub (Num 10) (or (Num s) (Num 0)) = sub (Num 10) (Num s).
Proof.
  unfold or; simpl. destruct (Qeq_bool s 0) eqn:E; simpl; [|reflexivity].
  apply Qeq_bool_iff in E. unfold sub; simpl. f_equal.
  apply round64_comp. now rewrite E.
Qed.

(** The bucket of the double nearest to [q]. *)
Lemma getRiskLevel_rounded (q : Q) :
  (Comparison.getRiskLevel (Num (round64 q)) = "high"
   <-> 7 - (1 # 2251799813685248) <= q) /\
  (Comparison.getRiskLevel (Num (round64 q)) = "medium"
   <-> 4 - (1 # 4503599627370496) <= q /\ q < 7 - (1 # 2251799813685248)) /\
  (Comparison.getRiskLevel (Num (round64 q)) = "low"
   <-> q < 4 - (1 # 4503599627370496)).
Proof.
  rewrite getRiskLevel_high, getRiskLevel_medium, getRiskLevel_low.
  pose proof (round64_ge_7 q) as H7. pose proof (round64_ge_4 q) as H4.
  repeat split; intros;
    repeat match goal with
           | H : _ /\ _ |- _ => destruct H
           end;
    try (apply H7; assumption); try (apply H4; assumption);
    try (apply Qnot_le_lt; intro A; apply H7 in A; lra);
    try (apply Qnot_le_lt; intro A; apply H4 in A; lra);
    try (apply Qnot_le_lt; intro A; apply <- H7 in A; lra);
    try (apply Qnot_le_lt; intro A; apply <- H4 in A; lra).
Qed.

(** The bucket of [10 - s], in terms of [s]: the boundaries are the reals
    whose difference from 10 is rounded to 7, respectively to 4. *)
Lemma inverted_level (s : Q) :
  (Comparison.getRiskLevel (sub (Num 10) (Num s)) = "high"
   <-> s <= 3 + (1 # 2251799813685248)) /\
  (Comparison.getRiskLevel (sub (Num 10) (Num s)) = "medium"
   <-> 3 + (1 # 2251799813685248) < s /\ s <= 6 + (1 # 4503599627370496)) /\
  (Comparison.getRiskLevel (sub (Num 10) (Num s)) = "low"
   <-> 6 + (1 # 4503599627370496) < s).
Proof.
  change (sub (Num 10) (Num s)) with (Num (round64 (10 - s))).
  destruct (getRiskLevel_rounded (10 - s)) as (H & M & L).
  rewrite H, M, L. repeat split; intros;
    repeat match goal with
           | A : _ /\ _ |- _ => destruct A
           end; lra.
Qed.

(** C7: wherever the user-rights score or the readability score is given a
    risk level or a risk colour (the comparison cards, the risk overview and
    the risk chart of the analysis view), the thresholds are applied to the
    double [10 - score], never to the score itself: a score of at most 3 is
    "high" and a score above 6 is "low".  The difference being rounded to
    the nearest double, the exact boundaries are [3 + 2^-51], the one double
    above 3 whose difference from 10 is rounded to 7, and [6 + 2^-52],
    below which no double other than those up to 6 lies. *)
Theorem C7_user_rights_and_readability_inverted (c : analysis) :
  (forall u : Q,
      field user_rights_score (risk_scores c) = Num u ->
      Comparison.userRightsClass c
      = Comparison.getRiskLevel (sub (Num 10) (Num u)) /\
      Analysis.userRightsClass c
      = Analysis.getRiskLevel (sub (Num 10) (Num u)) /\
      In (Analysis.mkBar "User Rights" (or (Num u) (Num 0))
                         (Analysis.getRiskColor (sub (Num 10) (Num u))))
         (Analysis.riskChartData (Some c)) /\
      (Comparison.userRightsClass c = "high"
       <-> u <= 3 + (1 # 2251799813685248)) /\
      (Comparison.userRightsClass c = "medium"
       <-> 3 + (1 # 2251799813685248) < u /\
           u <= 6 + (1 # 4503599627370496)) /\
      (Comparison.userRightsClass c = "low"
       <-> 6 + (1 # 4503599627370496) < u)) /\
  (forall r : Q,
      field readability_score (risk_scores c) = Num r ->
      Comparison.readabilityClass c
      = Comparison.getRiskLevel (sub (Num 10) (Num r)) /\
      Analysis.readabilityClass c
      = Analysis.getRiskLevel (sub (Num 10) (Num r)) /\
      In (Analysis.mkBar "Readability" (or (Num r) (Num 0))
                         (Analysis.getRiskColor (sub (Num 10) (Num r))))
         (Analysis.riskChartData (Some c)) /\
      (Comparison.readabilityClass c = "high"
       <-> r <= 3 + (1 # 2251799813685248)) /\
      (Comparison.readabilityClass c = "medium"
       <-> 3 + (1 # 2251799813685248) < r /\
           r <= 6 + (1 # 4503599627370496)) /\
      (Comparison.readabilityClass c = "low"
       <-> 6 + (1 # 4503599627370496) < r)).
Proof.
  split.
  - intros u Hu.
    assert (CU : Comparison.userRightsClass c
                 = Comparison.getRiskLevel (sub (Num 10) (Num u)))
      by (unfold Comparison.userRightsClass;
          now rewrite Hu, inverted_or_zero).
    split; [exact CU|].
    split; [unfold Analysis.userRightsClass;
            now rewrite Hu, inverted_or_zero|].
    split; [unfold Analysis.riskChartData;
            rewrite Hu, inverted_or_zero; simpl; auto|].
    rewrite CU. apply inverted_level.
  - intros r Hr.
    assert (CR : Comparison.readabilityClass c
                 = Comparison.getRiskLevel (sub (Num 10) (Num r)))
      by (unfold Comparison.readabilityClass;
          now rewrite Hr, inverted_or_zero).
    split; [exact CR|].
    split; [unfold Analysis.readabilityClass;
            now rewrite Hr, inverted_or_zero|].
    split; [unfold Analysis.riskChartData;
            rewrite Hr, inverted_or_zero; simpl; auto 6|].
    rewrite CR. apply inverted_level.
Qed.

Lemma C7_user_rights_and_readability_inverted_witness :
  Comparison.userRightsClass
    (mkAnalysis (Some (mkScores (Num 8) (Num 9) (Num 2) (Num 5) Undefined))
                no_scores None no_details) = "low" /\
  Comparison.readabilityClass
    (mkAnalysis (Some (mkScores (Num 8) (Num 9) (Num 2) (Num 5) Undefined))
                no_scores None no_details) = "high".
Proof.
  destruct (C7_user_rights_and_readability_inverted
              (mkAnalysis
                 (Some (mkScores (Num 8) (Num 9) (Num 2) (Num 5) Undefined))
                 no_scores None no_details)) as (HU & HR).
  destruct (HU 9 eq_refl) as (_ & _ & _ & _ & _ & L).
  destruct (HR 2 eq_refl) as (_ & _ & _ & H & _ & _).
  split; [apply L | apply H]; unfold Qlt, Qle; simpl; lia.
Defined.

(* ================================================================== *)
(** ** Formatting of analysis and comparison results *)

Lemma or_zero_filled (v : value) : filledFrom v (or v (Num 0)).
Proof. split; [apply or_zero_substituted | apply or_zero_number]. Qed.

(** C3, as the code has it: a [risk_scores] object supplied by the response
    is kept as it is; when the response has none, [formatAnalysisData]
    builds one whose five scores are all numbers, each the top-level score
    of the response when that is truthy and 0 otherwise, and
    [formatComparisonData] does the same for four scores, leaving
    [termination_risk] out.  The substituted value is 0, not 5.0. *)
Theorem C3_missing_scores_become_zero (a : analysis) :
  (exists r s,
      Analysis.formatAnalysisData (Object a) = Some r /\
      risk_scores r = Some s /\
      match risk_scores a with
      | Some s0 => s = s0
      | None =>
          filledFrom (data_risk (own a)) (data_risk s) /\
          filledFrom (user_rights_score (own a)) (user_rights_score s) /\
          filledFrom (readability_score (own a)) (readability_score s) /\
          filledFrom (overall_risk (own a)) (overall_risk s) /\
          filledFrom (termination_risk (own a)) (termination_risk s)
      end) /\
  (exists s,
      risk_scores (Comparison.formatComp a) = Some s /\
      match risk_scores a with
      | Some s0 => s = s0
      | None =>
          filledFrom (data_risk (own a)) (data_risk s) /\
          filledFrom (user_rights_score (own a)) (user_rights_score s) /\
          filledFrom (readability_score (own a)) (readability_score s) /\
          filledFrom (overall_risk (own a)) (overall_risk s) /\
          termination_risk s = Undefined
      end).
Proof.
  split.
  - eexists; eexists. split; [reflexivity|]. split; [reflexivity|].
    destruct (risk_scores a); [reflexivity|].
    repeat split; try apply or_zero_substituted; apply or_zero_number.
  - eexists. split; [reflexivity|].
    destruct (risk_scores a); [reflexivity|].
    repeat split; try apply or_zero_substituted; apply or_zero_number.
Qed.

(** A response without any score is formatted with scores 0, not 5.0; a
    comparison entry gets no [termination_risk] at all; and a [risk_scores]
    object without properties is passed on as it is. *)
Lemma C3_counterexample :
  Analysis.formatAnalysisData (Object emptyAnalysis)
  = Some (mkAnalysis
            (Some (mkScores (Num 0) (Num 0) (Num 0) (Num 0) (Num 0)))
            no_scores (Some "low") no_details) /\
  ~ 0 == 5.0 /\
  risk_scores (Comparison.formatComp emptyAnalysis)
  = Some (mkScores (Num 0) (Num 0) (Num 0) (Num 0) Undefined) /\
  Analysis.formatAnalysisData
    (Object (mkAnalysis (Some no_scores) no_scores None no_details))
  = Some (mkAnalysis (Some no_scores) no_scores (Some "low") no_details).
Proof.
  split; [reflexivity|]. split; [|split; reflexivity].
  unfold Qeq; simpl. lia.
Qed.

(* ================================================================== *)
(** ** Scores read from a table-format string *)









(* ================================================================== *)
(** ** Toggling an element of a list *)

Section Toggle.

Context {A : Type}.

(** [keep] is the test [x => x !== c]. *)
Variable c : A.
Variable keep : A -> bool.
Hypothesis keep_spec : forall x, keep x = false <-> x = c.

Lemma keep_true (x : A) : keep x = true <-> x <> c.
Proof.
  destruct (keep x) eqn:E.
  - split; [|reflexivity]. intros _ ->.
    assert (keep c = false) by now apply keep_spec. congruence.
  - apply keep_spec in E. split; [discriminate|]. intro N. contradiction.
Qed.

Lemma filter_keep_removes (l : list A) : ~ In c (filter keep l).
Proof.
  intro H. apply filter_In in H. destruct H as [_ H].
  apply keep_true in H. now apply H.
Qed.

Lemma filter_keep_others (l : list A) (x : A) :
  x <> c -> (In x (filter keep l) <-> In x l).
Proof.
  intro N. rewrite filter_In. apply keep_true in N. tauto.
Qed.

Lemma filter_keep_absent (l : list A) : ~ In c l -> filter keep l = l.
Proof.
  induction l as [|x l IH]; intro N; [reflexivity|]. simpl.
  assert (K : keep x = true).
  { apply keep_true. intros ->. apply N. now left. }
  rewrite K. f_equal. apply IH. intro H. apply N. now right.
Qed.

Lemma filter_keep_perm (l : list A) :
  NoDup l -> In c l -> Permutation l (c :: filter keep l).
Proof.
  induction 1 as [|x l Hx Hl IH]; intro Hin; [contradiction|].
  simpl. destruct (keep x) eqn:K.
  - destruct Hin as [->|Hin].
    + apply keep_true in K. now contradiction K.
    + rewrite perm_swap. apply perm_skip, IH, Hin.
  - apply keep_spec in K. subst x.
    rewrite filter_keep_absent by exact Hx. reflexivity.
Qed.

Lemma filter_keep_length (l : list A) :
  NoDup l -> In c l -> S (List.length (filter keep l)) = List.length l.
Proof.
  intros Hl Hin. symmetry.
  apply (Permutation_length (filter_keep_perm l Hl Hin)).
Qed.

End Toggle.

(* ================================================================== *)
(** ** Selection of companies *)

Section SelectionFacts.

Context {Id : Type}.
Variable Id_eq_dec : forall x y : Id, {x = y} + {x <> y}.

Lemma differs_spec (companyId x : Id) :
  (if Id_eq_dec x companyId then false else true) = false <-> x = companyId.
Proof. destruct (Id_eq_dec x companyId); split; congruence. Qed.

Lemma toggleSelected_selected (companyId : Id) (prev : list Id) :
  In companyId prev ->
  Comparison.toggleSelected Id_eq_dec companyId prev
  = (filter (fun id => if Id_eq_dec id companyId then false else true) prev,
     []).
Proof.
  intro H. unfold Comparison.toggleSelected.
  destruct (in_dec Id_eq_dec companyId prev); [reflexivity|contradiction].
Qed.

Lemma toggleSelected_new (companyId : Id) (prev : list Id) :
  ~ In companyId prev -> (List.length prev < 4)%nat ->
  Comparison.toggleSelected Id_eq_dec companyId prev
  = (prev ++ [companyId], []).
Proof.
  intros H L. unfold Comparison.toggleSelected.
  destruct (in_dec Id_eq_dec companyId prev); [contradiction|].
  destruct (Nat.leb_spec 4 (List.length prev)); [lia|reflexivity].
Qed.

Lemma toggleSelected_full (companyId : Id) (prev : list Id) :
  ~ In companyId prev -> (4 <= List.length prev)%nat ->
  Comparison.toggleSelected Id_eq_dec companyId prev
  = (prev, [Alert "Maximum 4 companies can be compared at once"]).
Proof.
  intros H L. unfold Comparison.toggleSelected.
  destruct (in_dec Id_eq_dec companyId prev); [contradiction|].
  destruct (Nat.leb_spec 4 (List.length prev)); [reflexivity|lia].
Qed.

(** Toggling never lengthens a selection beyond four entries. *)
Lemma toggleSelected_length (companyId : Id) (prev : list Id) :
  (List.length prev <= 4)%nat ->
  (List.length (fst (Comparison.toggleSelected Id_eq_dec companyId prev))
   <= 4)%nat.
Proof.
  intro L. unfold Comparison.toggleSelected.
  destruct (in_dec Id_eq_dec companyId prev).
  - simpl. etransitivity; [apply filter_length_le|exact L].
  - destruct (Nat.leb_spec 4 (List.length prev)); simpl; [exact L|].
    rewrite length_app; simpl. lia.
Qed.

Lemma toggleAll_from_length (ids sel : list Id) :
  (List.length sel <= 4)%nat ->
  (List.length
     (fold_left
        (fun sel id => fst (Comparison.toggleSelected Id_eq_dec id sel))
        ids sel) <= 4)%nat.
Proof.
  revert sel. induction ids as [|id ids IH]; intros sel L; simpl; [exact L|].
  apply IH, toggleSelected_length, L.
Qed.

(** C9: toggling a company keeps the selection free of duplicates and of
    length at most 4; a selected id is removed (and nothing else), a new id
    is appended when fewer than 4 are selected, and is refused otherwise. *)
Theorem C9_toggle_keeps_selection_invariant
  (companyId : Id) (prev : list Id) :
  NoDup prev ->
  (List.length prev <= 4)%nat ->
  NoDup (fst (Comparison.toggleSelected Id_eq_dec companyId prev)) /\
  (List.length (fst (Comparison.toggleSelected Id_eq_dec companyId prev))
   <= 4)%nat /\
  (In companyId prev ->
   ~ In companyId (fst (Comparison.toggleSelected Id_eq_dec companyId prev)) /\
   (forall x, x <> companyId ->
      (In x (fst (Comparison.toggleSelected Id_eq_dec companyId prev))
       <-> In x prev)) /\
   S (List.length (fst (Comparison.toggleSelected Id_eq_dec companyId prev)))
   = List.length prev) /\
  (~ In companyId prev -> (List.length prev < 4)%nat ->
   fst (Comparison.toggleSelected Id_eq_dec companyId prev)
   = prev ++ [companyId]) /\
  (~ In companyId prev -> List.length prev = 4%nat ->
   fst (Comparison.toggleSelected Id_eq_dec companyId prev) = prev).
Proof.
  intros ND L. split; [|split; [|split; [|split]]].
  - unfold Comparison.toggleSelected.
    destruct (in_dec Id_eq_dec companyId prev) as [i|n].
    + simpl. now apply NoDup_filter.
    + destruct (Nat.leb_spec 4 (List.length prev)); simpl; [exact ND|].
      apply NoDup_app; [exact ND | repeat constructor; intros [] |].
      intros x Hx [<-|[]]. contradiction.
  - now apply toggleSelected_length.
  - intro Hin. rewrite toggleSelected_selected by exact Hin. simpl.
    split; [|split].
    + apply (filter_keep_removes companyId _ (differs_spec companyId)).
    + intros x N.
      apply (filter_keep_others companyId _ (differs_spec companyId)), N.
    + apply (filter_keep_length companyId _ (differs_spec companyId));
        assumption.
  - intros N Lt. now rewrite toggleSelected_new.
  - intros N E. rewrite toggleSelected_full by (auto; lia). reflexivity.
Qed.

End SelectionFacts.

Lemma C9_toggle_keeps_selection_invariant_witness :
  NoDup (fst (Comparison.toggleSelected Nat.eq_dec 2%nat [1; 2; 3]%nat)) /\
  (List.length (fst (Comparison.toggleSelected Nat.eq_dec 2%nat [1; 2; 3]%nat))
   <= 4)%nat.
Proof.
  assert (ND : NoDup [1; 2; 3]%nat).
  { repeat constructor; simpl; intuition discriminate. }
  assert (L : (List.length [1; 2; 3]%nat <= 4)%nat) by (simpl; lia).
  destruct (C9_toggle_keeps_selection_invariant
              Nat.eq_dec 2%nat [1; 2; 3]%nat ND L) as (H1 & H2 & _).
  split; [exact H1 | exact H2].
Defined.

(* ================================================================== *)
(** ** Running a comparison *)

(** C4: a comparison of fewer than 2 selected companies is refused before
    anything is done (an alert, no request, the state unchanged); with 2 or
    more the request is issued; and the selection never holds more than 4
    entries, whether one toggle is applied to a selection of at most 4 or any
    sequence of toggles to the empty selection. *)
Theorem C4_comparison_requires_two_to_four
  {Id : Type} (Id_eq_dec : forall x y : Id, {x = y} + {x <> y})
  (st : Comparison.state Id) (r : reply (option Comparison.comparison))
  (companyId : Id) (ids : list Id) :
  ((List.length (Comparison.selectedCompanies st) < 2)%nat ->
   Comparison.runComparison Id_eq_dec st r
   = (st, [Alert "Please select at least 2 companies to compare"])) /\
  ((2 <= List.length (Comparison.selectedCompanies st))%nat ->
   snd (Comparison.runComparison Id_eq_dec st r)
   = [PostCompare (Comparison.companyNames Id_eq_dec st)]) /\
  ((List.length (Comparison.selectedCompanies st) <= 4)%nat ->
   (List.length
      (Comparison.selectedCompanies
         (fst (Comparison.toggleCompany Id_eq_dec companyId st))) <= 4)%nat) /\
  (List.length (toggleAll Id_eq_dec ids) <= 4)%nat.
Proof.
  split; [|split; [|split]].
  - intro L. unfold Comparison.runComparison, Comparison.runComparisonStart.
    destruct (Nat.ltb_spec (List.length (Comparison.selectedCompanies st)) 2);
      [reflexivity|lia].
  - intro L. unfold Comparison.runComparison, Comparison.runComparisonStart.
    destruct (Nat.ltb_spec (List.length (Comparison.selectedCompanies st)) 2);
      [lia|].
    reflexivity.
  - intro L. unfold Comparison.toggleCompany.
    pose proof (toggleSelected_length Id_eq_dec companyId
                  (Comparison.selectedCompanies st) L) as H.
    destruct (Comparison.toggleSelected Id_eq_dec companyId
                (Comparison.selectedCompanies st)) as [sel acts].
    exact H.
  - unfold toggleAll. apply toggleAll_from_length. simpl. lia.
Qed.

Lemma C4_comparison_requires_two_to_four_witness :
  Comparison.runComparison Nat.eq_dec
    (Comparison.mkState [] [7%nat] None false "" "" "" None false)
    (Json None)
  = (Comparison.mkState [] [7%nat] None false "" "" "" None false,
     [Alert "Please select at least 2 companies to compare"]) /\
  snd (Comparison.runComparison Nat.eq_dec
         (Comparison.mkState
            [Comparison.mkCompany 7%nat (SStr "Acme") SUndefined;
             Comparison.mkCompany 9%nat (SStr "Globex") SUndefined]
            [7%nat; 9%nat] None false "" "" "" None false)
         (Json None))
  = [PostCompare [SStr "Acme"; SStr "Globex"]] /\
  (List.length
     (Comparison.selectedCompanies
        (fst (Comparison.toggleCompany Nat.eq_dec 5%nat
                (Comparison.mkState [] [1; 2; 3; 4]%nat None false "" "" ""
                                    None false)))) <= 4)%nat.
Proof.
  split; [|split].
  - apply (C4_comparison_requires_two_to_four Nat.eq_dec
             (Comparison.mkState [] [7%nat] None false "" "" "" None false)
             (Json None) 0%nat []).
    simpl. lia.
  - apply (C4_comparison_requires_two_to_four Nat.eq_dec
             (Comparison.mkState
                [Comparison.mkCompany 7%nat (SStr "Acme") SUndefined;
                 Comparison.mkCompany 9%nat (SStr "Globex") SUndefined]
                [7%nat; 9%nat] None false "" "" "" None false)
             (Json None) 0%nat []).
    simpl. lia.
  - apply (C4_comparison_requires_two_to_four Nat.eq_dec
             (Comparison.mkState [] [1; 2; 3; 4]%nat None false "" "" ""
                                 None false)
             (Json None) 5%nat []).
    simpl. lia.
Defined.

(* ================================================================== *)
(** ** Data concerns of the profile *)

Lemma concern_differs_spec (concern x : string) :
  negb (String.eqb x concern) = false <-> x = concern.
Proof.
  rewrite negb_false_iff. apply String.eqb_eq.
Qed.

Lemma includes_concern (concern : string) (l : list string) :
  existsb (String.eqb concern) l = true <-> In concern l.
Proof.
  rewrite existsb_exists. split.
  - intros (x & Hx & E). apply String.eqb_eq in E. now subst.
  - intro H. exists concern. split; [exact H|apply String.eqb_refl].
Qed.

Lemma includes_concern_false (concern : string) (l : list string) :
  existsb (String.eqb concern) l = false <-> ~ In concern l.
Proof.
  rewrite <- includes_concern.
  destruct (existsb (String.eqb concern) l); split; congruence.
Qed.

Lemma profile_ext (p q : Profile.userProfile) :
  Profile.riskTolerance p = Profile.riskTolerance q ->
  Profile.dataConcerns p = Profile.dataConcerns q ->
  Profile.location p = Profile.location q ->
  p = q.
Proof. destruct p, q; simpl; intros; subst; reflexivity. Qed.

(** The concerns after toggling [concern] twice. *)
Lemma toggleConcern_twice_concerns (concern : string) (l : list string)
  (t loc : string) :
  Profile.dataConcerns
    (Profile.toggleConcern concern
       (Profile.toggleConcern concern (Profile.mkProfile t l loc)))
  = if existsb (String.eqb concern) l
    then filter (fun c => negb (String.eqb c concern)) l ++ [concern]
    else l.
Proof.
  unfold Profile.toggleConcern; simpl.
  destruct (existsb (String.eqb concern) l) eqn:E.
  - assert (N : existsb (String.eqb concern)
                  (filter (fun c => negb (String.eqb c concern)) l) = false).
    { apply includes_concern_false.
      apply (filter_keep_removes concern _ (concern_differs_spec concern)). }
    rewrite N. reflexivity.
  - assert (Y : existsb (String.eqb concern) (l ++ [concern]) = true).
    { apply includes_concern, in_or_app. right. now left. }
    rewrite Y. rewrite filter_app. simpl.
    rewrite String.eqb_refl. simpl. rewrite app_nil_r.
    apply (filter_keep_absent concern _ (concern_differs_spec concern)).
    now apply includes_concern_false.
Qed.

(** C10, as the code has it: toggling the same concern twice on a profile
    whose concerns have no duplicates gives back the same set of concerns,
    as a permutation of the original list, and leaves the other properties
    alone; the list itself is restored when the concern was not selected; a
    concern that was selected ends up last. *)
Theorem C10_toggle_twice_same_concerns
  (concern : string) (p : Profile.userProfile) :
  NoDup (Profile.dataConcerns p) ->
  Permutation
    (Profile.dataConcerns
       (Profile.toggleConcern concern (Profile.toggleConcern concern p)))
    (Profile.dataConcerns p) /\
  Profile.riskTolerance
    (Profile.toggleConcern concern (Profile.toggleConcern concern p))
  = Profile.riskTolerance p /\
  Profile.location
    (Profile.toggleConcern concern (Profile.toggleConcern concern p))
  = Profile.location p /\
  (~ In concern (Profile.dataConcerns p) ->
   Profile.toggleConcern concern (Profile.toggleConcern concern p) = p) /\
  (In concern (Profile.dataConcerns p) ->
   Profile.dataConcerns
     (Profile.toggleConcern concern (Profile.toggleConcern concern p))
   = filter (fun c => negb (String.eqb c concern)) (Profile.dataConcerns p)
     ++ [concern]).
Proof.
  destruct p as [t l loc]. intro ND. change (NoDup l) in ND.
  change (Profile.dataConcerns (Profile.mkProfile t l loc)) with l.
  pose proof (toggleConcern_twice_concerns concern l t loc) as E.
  split; [|split; [reflexivity|split; [reflexivity|split]]].
  - rewrite E. destruct (existsb (String.eqb concern) l) eqn:X; [|reflexivity].
    apply includes_concern in X.
    rewrite <- Permutation_cons_append. symmetry.
    apply (filter_keep_perm concern _ (concern_differs_spec concern));
      assumption.
  - intro N. apply includes_concern_false in N. rewrite N in E.
    apply profile_ext; [reflexivity | exact E | reflexivity].
  - intro Y. apply includes_concern in Y. rewrite Y in E. exact E.
Qed.

Lemma C10_toggle_twice_same_concerns_witness :
  Permutation
    (Profile.dataConcerns
       (Profile.toggleConcern "data_collection"
          (Profile.toggleConcern "data_collection" Profile.initialProfile)))
    (Profile.dataConcerns Profile.initialProfile).
Proof.
  apply (C10_toggle_twice_same_concerns "data_collection"
           Profile.initialProfile).
  repeat constructor; simpl; intuition discriminate.
Defined.

(** Toggling "data_collection" twice on the initial profile moves it behind
    "data_sharing": the list is not the original one. *)
Lemma C10_counterexample :
  NoDup (Profile.dataConcerns Profile.initialProfile) /\
  Profile.dataConcerns
    (Profile.toggleConcern "data_collection"
       (Profile.toggleConcern "data_collection" Profile.initialProfile))
  = ["data_sharing"; "data_collection"] /\
  Profile.dataConcerns
    (Profile.toggleConcern "data_collection"
       (Profile.toggleConcern "data_collection" Profile.initialProfile))
  <> Profile.dataConcerns Profile.initialProfile.
Proof.
  split; [|split].
  - repeat constructor; simpl; intuition discriminate.
  - reflexivity.
  - simpl. discriminate.
Qed.

(* ================================================================== *)
(** ** Further properties of the bucketing *)

(** X1: bucketing is monotone: a larger score never gets a lower bucket. *)
Theorem getRiskLevel_monotone (x y : Q) :
  x <= y ->
  (levelRank (Comparison.getRiskLevel (Num x))
   <= levelRank (Comparison.getRiskLevel (Num y)))%nat.
Proof.
  intro L. unfold Comparison.getRiskLevel.
  destruct (ge (Num x) (Num 7)) eqn:X7; destruct (ge (Num y) (Num 7)) eqn:Y7;
    destruct (ge (Num x) (Num 4)) eqn:X4;
    destruct (ge (Num y) (Num 4)) eqn:Y4;
    try (cbn; lia);
    repeat match goal with
           | H : ge _ _ = true |- _ => apply ge_Num in H
           | H : ge _ _ = false |- _ => apply ge_Num_false in H
           end; lra.
Qed.

Lemma getRiskLevel_monotone_witness :
  (levelRank (Comparison.getRiskLevel (Num 3.5))
   <= levelRank (Comparison.getRiskLevel (Num 6.25)))%nat.
Proof.
  apply getRiskLevel_monotone. unfold Qle; simpl. lia.
Defined.

(** X2: for every value, missing ones included, the colour is the colour of
    the bucket, in the comparison view and in the analysis view. *)
Theorem getRiskColor_matches_level (v : value) :
  Comparison.getRiskColor v = levelColor (Comparison.getRiskLevel v) /\
  Analysis.getRiskColor v = levelColor (Analysis.getRiskLevel v).
Proof.
  unfold Comparison.getRiskColor, Comparison.getRiskLevel,
    Analysis.getRiskColor, Analysis.getRiskLevel.
  destruct (ge v (Num 7)); [|destruct (ge v (Num 4))]; split; reflexivity.
Qed.

Lemma falsy_or_zero (v : value) : truthy v = false -> or v (Num 0) = Num 0.
Proof. intro H. unfold or. now rewrite H. Qed.

Lemma not_number_low (v : value) :
  (forall q, v <> Num q) -> Comparison.getRiskLevel v = "low".
Proof.
  intro H. destruct v; try reflexivity. now contradiction (H q).
Qed.

(** X3: a score that is missing, [null] or [NaN] is shown as low risk on the
    data-risk axis, while a missing, [null] or zero user-rights or
    readability score is shown as high risk. *)
Theorem missing_score_classes (c : analysis) :
  ((forall q, field data_risk (risk_scores c) <> Num q) ->
   Comparison.dataRiskClass c = "low" /\ Analysis.dataRiskClass c = "low") /\
  (truthy (field user_rights_score (risk_scores c)) = false ->
   Comparison.userRightsClass c = "high" /\
   Analysis.userRightsClass c = "high") /\
  (truthy (field readability_score (risk_scores c)) = false ->
   Comparison.readabilityClass c = "high" /\
   Analysis.readabilityClass c = "high").
Proof.
  split; [|split].
  - intro H. split; apply not_number_low, H.
  - intro H.
    unfold Comparison.userRightsClass, Analysis.userRightsClass.
    rewrite (falsy_or_zero _ H). split; reflexivity.
  - intro H.
    unfold Comparison.readabilityClass, Analysis.readabilityClass.
    rewrite (falsy_or_zero _ H). split; reflexivity.
Qed.

Lemma missing_score_classes_witness :
  (Comparison.dataRiskClass emptyAnalysis = "low" /\
   Analysis.dataRiskClass emptyAnalysis = "low") /\
  (Comparison.userRightsClass emptyAnalysis = "high" /\
   Analysis.userRightsClass emptyAnalysis = "high") /\
  (Comparison.readabilityClass emptyAnalysis = "high" /\
   Analysis.readabilityClass emptyAnalysis = "high").
Proof.
  destruct (missing_score_classes emptyAnalysis) as (H1 & H2 & H3).
  split; [|split].
  - apply H1. intros q E. discriminate E.
  - apply H2. reflexivity.
  - apply H3. reflexivity.
Defined.

(* ================================================================== *)
(** ** The risk distribution of the dashboard *)

Lemma getRiskLevel_cases (v : value) :
  Comparison.getRiskLevel v = "high" \/
  Comparison.getRiskLevel v = "medium" \/
  Comparison.getRiskLevel v = "low".
Proof.
  unfold Comparison.getRiskLevel.
  destruct (ge v (Num 7)); [|destruct (ge v (Num 4))]; auto.
Qed.

Lemma levelCount_total (l : list history_item) :
  (levelCount "high" l + levelCount "medium" l + levelCount "low" l
   = List.length l)%nat.
Proof.
  unfold levelCount. induction l as [|a l IH]; [reflexivity|].
  simpl.
  destruct (getRiskLevel_cases (risk_score a)) as [E|[E|E]]; rewrite E;
    simpl; lia.
Qed.

(** X4: the three counters of the risk distribution add up to the number of
    analyses, and an argument that is not an array gives three zeros. *)
Theorem calculateRiskDistribution_total :
  (forall l : list history_item,
      let d := Dashboard.calculateRiskDistribution (Some l) in
      (Dashboard.high d + Dashboard.medium d + Dashboard.low d
       = List.length l)%nat) /\
  Dashboard.calculateRiskDistribution None = Dashboard.mkDistribution 0 0 0.
Proof.
  split; [|reflexivity].
  intro l. unfold Dashboard.calculateRiskDistribution.
  rewrite fold_countRisk. simpl. apply levelCount_total.
Qed.

(** X5: the pie chart of the dashboard is drawn exactly when the history
    list is not empty. *)
Theorem chartShown_iff_nonempty (l : list history_item) :
  Dashboard.chartShown (Some (Dashboard.statsOf l)) = true <-> l <> [].
Proof.
  unfold Dashboard.chartShown, Dashboard.riskChartData, Dashboard.statsOf.
  unfold Dashboard.calculateRiskDistribution. rewrite fold_countRisk.
  pose proof (levelCount_total l) as T. simpl.
  split.
  - intros H E. subst l. discriminate H.
  - intro N. destruct l as [|a l]; [congruence|]. simpl List.length in T.
    destruct (Nat.ltb_spec 0 (levelCount "high" (a :: l)));
      destruct (Nat.ltb_spec 0 (levelCount "medium" (a :: l)));
      destruct (Nat.ltb_spec 0 (levelCount "low" (a :: l)));
      simpl; try reflexivity; lia.
Qed.

(* ================================================================== *)
(** ** Further properties of the formatting functions *)

Lemma text_or_nonempty (t : text) (dflt : string) :
  dflt <> "" -> text_or t dflt <> "".
Proof.
  intro N. unfold text_or. destruct t as [s|]; [|exact N].
  destruct (String.eqb_spec s ""); assumption.
Qed.

Lemma text_or_Some (s dflt : string) : s <> "" -> text_or (Some s) dflt = s.
Proof.
  intro N. unfold text_or.
  destruct (String.eqb_spec s ""); [contradiction|reflexivity].
Qed.

Lemma text_truthy_Some (s : string) : s <> "" -> text_truthy (Some s) = true.
Proof.
  intro N. unfold text_truthy.
  destruct (String.eqb_spec s ""); [contradiction|reflexivity].
Qed.

Lemma getRiskLevel_nonempty (v : value) : Comparison.getRiskLevel v <> "".
Proof.
  destruct (getRiskLevel_cases v) as [E|[E|E]]; rewrite E; discriminate.
Qed.

Lemma formatComp_idempotent (comp : analysis) :
  Comparison.formatComp (Comparison.formatComp comp)
  = Comparison.formatComp comp.
Proof.
  unfold Comparison.formatComp at 1.
  cbn [risk_scores own risk_level rest Comparison.formatComp].
  rewrite text_or_Some
    by (apply text_or_nonempty, getRiskLevel_nonempty).
  reflexivity.
Qed.

(** X6: formatting a comparison result twice is the same as formatting it
    once. *)
Theorem formatComparisonData_idempotent (d : option Comparison.comparison) :
  Comparison.formatComparisonData (Comparison.formatComparisonData d)
  = Comparison.formatComparisonData d.
Proof.
  destruct d as [d|]; [|reflexivity].
  unfold Comparison.formatComparisonData.
  cbn [Comparison.comparisons Comparison.insights Comparison.comparison_type].
  do 3 f_equal.
  destruct (Comparison.comparisons d) as [l|]; [|reflexivity].
  rewrite map_map. apply map_ext. intro c. apply formatComp_idempotent.
Qed.

(** X7: what [formatAnalysisData] returns, from an object or from a table
    string, is left unchanged by formatting it again. *)
Theorem formatAnalysisData_idempotent (p : payload) (r : analysis) :
  Analysis.formatAnalysisData p = Some r ->
  Analysis.formatAnalysisData (Object r) = Some r.
Proof.
  destruct p as [|s|a]; simpl.
  - discriminate.
  - destruct (String.eqb s ""); [discriminate|].
    intro E. injection E as <-.
    unfold Analysis.parseTableData.
    cbn [risk_scores own risk_level rest Analysis.formatAnalysisData].
    rewrite text_or_Some by apply getRiskLevel_nonempty. reflexivity.
  - intro E. injection E as <-.
    cbn [risk_scores own risk_level rest Analysis.formatAnalysisData].
    rewrite text_or_Some
      by (apply text_or_nonempty, getRiskLevel_nonempty).
    reflexivity.
Qed.

Lemma formatAnalysisData_idempotent_witness :
  Analysis.formatAnalysisData
    (Object (Analysis.parseTableData "Overall Risk: 7.5/10"))
  = Some (Analysis.parseTableData "Overall Risk: 7.5/10").
Proof.
  apply (formatAnalysisData_idempotent (Table "Overall Risk: 7.5/10")).
  reflexivity.
Defined.

(** X8: [formatAnalysisData] returns [null] exactly for a missing analysis
    and for the empty string. *)
Theorem formatAnalysisData_null_iff (p : payload) :
  Analysis.formatAnalysisData p = None <-> p = Missing \/ p = Table "".
Proof.
  destruct p as [|s|a]; simpl.
  - split; auto.
  - destruct (String.eqb_spec s "").
    + subst. split; auto.
    + split; [discriminate|]. intros [E|E]; [discriminate|].
      injection E as ->. contradiction.
  - split; [discriminate|]. intros [E|E]; discriminate.
Qed.

(** X9: a formatted analysis and a formatted comparison entry always carry a
    [risk_scores] object and a non-empty [risk_level], so that the views
    never fall back to their defaults for these. *)
Theorem formatted_results_complete :
  (forall (p : payload) (r : analysis),
      Analysis.formatAnalysisData p = Some r ->
      (exists s, risk_scores r = Some s) /\
      text_truthy (risk_level r) = true) /\
  (forall comp : analysis,
      (exists s, risk_scores (Comparison.formatComp comp) = Some s) /\
      text_truthy (risk_level (Comparison.formatComp comp)) = true).
Proof.
  split.
  - intros p r. destruct p as [|s|a]; simpl.
    + discriminate.
    + destruct (String.eqb s ""); [discriminate|].
      intro E. injection E as <-. simpl. split; [eauto|].
      apply text_truthy_Some, getRiskLevel_nonempty.
    + intro E. injection E as <-. simpl. split; [eauto|].
      apply text_truthy_Some, text_or_nonempty, getRiskLevel_nonempty.
  - intro comp. simpl. split; [eauto|].
    apply text_truthy_Some, text_or_nonempty, getRiskLevel_nonempty.
Qed.

Lemma formatted_results_complete_witness :
  (exists s,
      risk_scores
        (mkAnalysis
           (Some (mkScores (Num 0) (Num 0) (Num 0) (Num 0) (Num 0)))
           no_scores (Some "low") no_details) = Some s) /\
  text_truthy
    (risk_level
       (mkAnalysis
          (Some (mkScores (Num 0) (Num 0) (Num 0) (Num 0) (Num 0)))
          no_scores (Some "low") no_details)) = true.
Proof.
  apply (proj1 formatted_results_complete (Object emptyAnalysis)).
  reflexivity.
Defined.

(** X10: the risk level of a URL-comparison entry is the bucket of the
    overall risk the insights are built from, provided the analysis does not
    carry a truthy overall risk both at its top level and in [risk_scores]
    (the entry reads the top level first, the insights [risk_scores]
    first). *)
Theorem urlEntry_level_matches_insight_risk
  (label customUrl : string) (a : payload) :
  truthy (field overall_risk (own_of a)) = false \/
  truthy (field overall_risk (risk_scores_of a)) = false ->
  risk_level (Comparison.urlEntry label customUrl a)
  = Some (Comparison.getRiskLevel (Comparison.overallOf a)).
Proof.
  unfold Comparison.urlEntry, Comparison.overallOf. simpl.
  set (top := field overall_risk (own_of a)).
  set (nested := field overall_risk (risk_scores_of a)).
  intros [H|H]; unfold or; rewrite ?H;
    destruct (truthy top) eqn:T; destruct (truthy nested) eqn:N;
    rewrite ?T, ?N; try reflexivity; congruence.
Qed.

Lemma urlEntry_level_matches_insight_risk_witness :
  risk_level (Comparison.urlEntry "Custom URL 1" "https://a.example/terms"
                                  (withOverall 8.2))
  = Some (Comparison.getRiskLevel (Comparison.overallOf (withOverall 8.2))).
Proof.
  apply urlEntry_level_matches_insight_risk. left. reflexivity.
Defined.

Lemma urlEntry_missing (label customUrl : string) (p : payload) :
  (forall a, p <> Object a) ->
  Comparison.urlEntry label customUrl p = zeroEntry label customUrl.
Proof.
  intro H. destruct p as [|s|a]; try reflexivity. now contradiction (H a).
Qed.

(* ================================================================== *)
(** ** Further properties of the insights *)

Lemma gt_irrefl (v : value) : gt v v = false.
Proof.
  unfold gt. destruct (to_number v) as [x|]; [|reflexivity].
  assert (E : Qle_bool x x = true) by (apply Qle_bool_iff; lra).
  now rewrite E.
Qed.

(** X11: exchanging the two analyses exchanges the roles of URL 1 and URL 2
    in the overall-risk insight, keeps "similar", and keeps the number of
    insights. *)
Theorem generateUrlInsights_symmetric (a b : payload) :
  (saysUrl1Higher (Comparison.generateUrlInsights a b)
   <-> saysUrl2Higher (Comparison.generateUrlInsights b a)) /\
  (saysSimilar (Comparison.generateUrlInsights a b)
   <-> saysSimilar (Comparison.generateUrlInsights b a)) /\
  List.length (Comparison.generateUrlInsights a b)
  = List.length (Comparison.generateUrlInsights b a).
Proof.
  destruct (overallOf_number a) as [x Ha].
  destruct (overallOf_number b) as [y Hb].
  destruct (overall_insight_rule_zero a b x y Ha Hb) as (A1 & A2 & A3).
  destruct (overall_insight_rule_zero b a y x Hb Ha) as (B1 & B2 & B3).
  split; [|split].
  - rewrite A1, B2. reflexivity.
  - rewrite A3, B3, !Qabs_Qle_condition. split; intro; lra.
  - rewrite !generateUrlInsights_shape. simpl. f_equal.
    destruct (dataRiskOf_number a) as [u Hu].
    destruct (dataRiskOf_number b) as [v Hv].
    rewrite Hu, Hv.
    destruct (gt (Num u) (Num v)) eqn:G1; destruct (gt (Num v) (Num u)) eqn:G2;
      try reflexivity.
Qed.

(** X12: an analysis compared with itself yields the single insight that
    both URLs have similar overall risk levels. *)
Theorem generateUrlInsights_same (a : payload) :
  Comparison.generateUrlInsights a a = [Comparison.bothSimilar].
Proof.
  rewrite generateUrlInsights_shape, !gt_irrefl. reflexivity.
Qed.

(* ================================================================== *)
(** ** Further properties of the selection and of the profile *)

Section MoreSelectionFacts.

Context {Id : Type}.
Variable Id_eq_dec : forall x y : Id, {x = y} + {x <> y}.

Lemma toggleSelected_NoDup (companyId : Id) (prev : list Id) :
  NoDup prev ->
  NoDup (fst (Comparison.toggleSelected Id_eq_dec companyId prev)).
Proof.
  intro ND. unfold Comparison.toggleSelected.
  destruct (in_dec Id_eq_dec companyId prev) as [i|n].
  - simpl. now apply NoDup_filter.
  - destruct (Nat.leb_spec 4 (List.length prev)); simpl; [exact ND|].
    apply NoDup_app; [exact ND | repeat constructor; intros [] |].
    intros x Hx [<-|[]]. contradiction.
Qed.

Lemma toggleAll_from_NoDup (ids sel : list Id) :
  NoDup sel ->
  NoDup
    (fold_left
       (fun sel id => fst (Comparison.toggleSelected Id_eq_dec id sel))
       ids sel).
Proof.
  revert sel. induction ids as [|id ids IH]; intros sel ND; simpl; [exact ND|].
  apply IH, toggleSelected_NoDup, ND.
Qed.

(** X13: whatever sequence of companies is clicked, starting from the empty
    selection, the selection has no duplicates and at most 4 entries. *)
Theorem toggleAll_invariant (ids : list Id) :
  NoDup (toggleAll Id_eq_dec ids) /\
  (List.length (toggleAll Id_eq_dec ids) <= 4)%nat.
Proof.
  unfold toggleAll. split.
  - apply toggleAll_from_NoDup. constructor.
  - apply toggleAll_from_length. simpl. lia.
Qed.

(** X14: the alert about the maximum of 4 companies is raised exactly when a
    company that is not selected is clicked while 4 or more are selected,
    and then the selection is left as it is; no other alert is raised. *)
Theorem toggleSelected_alert (companyId : Id) (prev : list Id) :
  (snd (Comparison.toggleSelected Id_eq_dec companyId prev)
   = [Alert "Maximum 4 companies can be compared at once"]
   <-> ~ In companyId prev /\ (4 <= List.length prev)%nat) /\
  (snd (Comparison.toggleSelected Id_eq_dec companyId prev) <> [] ->
   snd (Comparison.toggleSelected Id_eq_dec companyId prev)
   = [Alert "Maximum 4 companies can be compared at once"] /\
   fst (Comparison.toggleSelected Id_eq_dec companyId prev) = prev).
Proof.
  destruct (in_dec Id_eq_dec companyId prev) as [Y|N].
  - rewrite (toggleSelected_selected Id_eq_dec companyId prev Y). simpl.
    split; [|intro H; now contradiction H].
    split; [discriminate|]. intros [N _]. contradiction.
  - destruct (Nat.lt_ge_cases (List.length prev) 4) as [Lt|Ge].
    + rewrite (toggleSelected_new Id_eq_dec companyId prev N Lt). simpl.
      split; [|intro H; now contradiction H].
      split; [discriminate|]. intros [_ L]. lia.
    + rewrite (toggleSelected_full Id_eq_dec companyId prev N Ge). simpl.
      split; [|auto]. split; auto.
Qed.

(** X15: on a selection without duplicates and of at most 4 entries,
    clicking the same company twice gives back the same set of selected
    companies, and the very same list when the company was not selected. *)
Theorem toggleSelected_twice (companyId : Id) (prev : list Id) :
  NoDup prev ->
  (List.length prev <= 4)%nat ->
  Permutation
    (fst (Comparison.toggleSelected Id_eq_dec companyId
            (fst (Comparison.toggleSelected Id_eq_dec companyId prev))))
    prev /\
  (~ In companyId prev ->
   fst (Comparison.toggleSelected Id_eq_dec companyId
          (fst (Comparison.toggleSelected Id_eq_dec companyId prev)))
   = prev).
Proof.
  intros ND L.
  assert (NotIn : ~ In companyId prev ->
                  fst (Comparison.toggleSelected Id_eq_dec companyId
                         (fst (Comparison.toggleSelected Id_eq_dec companyId
                                 prev))) = prev).
  { intro N. destruct (Nat.lt_ge_cases (List.length prev) 4) as [Lt|Ge].
    - rewrite (toggleSelected_new Id_eq_dec companyId prev N Lt). simpl.
      rewrite toggleSelected_selected
        by (apply in_or_app; right; now left).
      simpl. rewrite filter_app. simpl.
      destruct (Id_eq_dec companyId companyId) as [_|B];
        [|now contradiction B].
      rewrite app_nil_r.
      apply (filter_keep_absent companyId _ (differs_spec Id_eq_dec companyId)).
      exact N.
    - rewrite (toggleSelected_full Id_eq_dec companyId prev N Ge). simpl.
      rewrite (toggleSelected_full Id_eq_dec companyId prev N Ge).
      reflexivity. }
  split; [|exact NotIn].
  destruct (in_dec Id_eq_dec companyId prev) as [Y|N];
    [|rewrite (NotIn N); reflexivity].
  rewrite (toggleSelected_selected Id_eq_dec companyId prev Y). simpl.
  pose proof (filter_keep_length companyId _
                (differs_spec Id_eq_dec companyId) prev ND Y) as Len.
  rewrite toggleSelected_new.
  - simpl. rewrite <- Permutation_cons_append. symmetry.
    apply (filter_keep_perm companyId _ (differs_spec Id_eq_dec companyId));
      assumption.
  - apply (filter_keep_removes companyId _ (differs_spec Id_eq_dec companyId)).
  - lia.
Qed.

End MoreSelectionFacts.

Lemma toggleSelected_alert_witness :
  snd (Comparison.toggleSelected Nat.eq_dec 9%nat [1; 2; 3; 4]%nat)
  = [Alert "Maximum 4 companies can be compared at once"] /\
  fst (Comparison.toggleSelected Nat.eq_dec 9%nat [1; 2; 3; 4]%nat)
  = [1; 2; 3; 4]%nat.
Proof.
  apply (toggleSelected_alert Nat.eq_dec 9%nat [1; 2; 3; 4]%nat).
  simpl. discriminate.
Defined.

Lemma toggleSelected_twice_witness :
  Permutation
    (fst (Comparison.toggleSelected Nat.eq_dec 1%nat
            (fst (Comparison.toggleSelected Nat.eq_dec 1%nat
                    [1; 2; 3]%nat))))
    [1; 2; 3]%nat.
Proof.
  apply (toggleSelected_twice Nat.eq_dec 1%nat [1; 2; 3]%nat).
  - repeat constructor; simpl; intuition discriminate.
  - simpl. lia.
Defined.

(** X16: toggling a concern flips whether it is selected, leaves the other
    concerns as they are, and keeps a list without duplicates free of
    duplicates. *)
Theorem toggleConcern_flips (concern : string) (p : Profile.userProfile) :
  (In concern (Profile.dataConcerns (Profile.toggleConcern concern p))
   <-> ~ In concern (Profile.dataConcerns p)) /\
  (forall x, x <> concern ->
     (In x (Profile.dataConcerns (Profile.toggleConcern concern p))
      <-> In x (Profile.dataConcerns p))) /\
  (NoDup (Profile.dataConcerns p) ->
   NoDup (Profile.dataConcerns (Profile.toggleConcern concern p))).
Proof.
  destruct p as [t l loc]. unfold Profile.toggleConcern.
  cbn [Profile.dataConcerns Profile.riskTolerance Profile.location].
  destruct (existsb (String.eqb concern) l) eqn:E.
  - apply includes_concern in E. split; [|split].
    + split; [|tauto]. intro H. exfalso.
      now apply (filter_keep_removes concern _
                   (concern_differs_spec concern) l).
    + intros x N.
      apply (filter_keep_others concern _ (concern_differs_spec concern)), N.
    + apply NoDup_filter.
  - apply includes_concern_false in E. split; [|split].
    + split; [tauto|]. intros _. apply in_or_app. right. now left.
    + intros x N. rewrite in_app_iff. simpl. intuition congruence.
    + intro ND. apply NoDup_app; [exact ND | repeat constructor; intros [] |].
      intros x Hx [<-|[]]. contradiction.
Qed.

Lemma toggleConcern_flips_witness :
  NoDup (Profile.dataConcerns
           (Profile.toggleConcern "cookies" Profile.initialProfile)).
Proof.
  apply (toggleConcern_flips "cookies" Profile.initialProfile).
  repeat constructor; simpl; intuition discriminate.
Defined.

(* ================================================================== *)
(** ** The handlers of the comparison view and of the analysis view *)

Lemma prefix_append (a b : string) : String.prefix a (a ++ b) = true.
Proof.
  induction a as [|c a IH]; simpl.
  - now destruct b.
  - destruct (ascii_dec c c) as [_|N]; [exact IH|now contradiction N].
Qed.

Section HandlerFacts.

Context {Id : Type}.
Variable Id_eq_dec : forall x y : Id, {x = y} + {x <> y}.

(** X17: [runComparison] in its two phases.  Started with at least 2
    companies selected it switches [loading] on, clears both comparisons and
    the error and issues its one request.  When the request ends, whatever
    other handlers have made of the state [cur] in the meantime, it switches
    [loading] off and writes one more field only: the comparison (the
    formatted body) when a body arrived, the error otherwise, as
    "Comparison failed: " and the message of the exception, which for a
    response that is not [ok] starts with "Comparison failed: " itself.  The
    selection, the company list, the URLs, the URL comparison and
    [urlLoading] are left as they are. *)
Theorem runComparison_phases
  (st cur : Comparison.state Id) (r : reply (option Comparison.comparison)) :
  ((2 <= List.length (Comparison.selectedCompanies st))%nat ->
   Comparison.runComparisonStart Id_eq_dec st
   = (Comparison.mkState
        (Comparison.companies st) (Comparison.selectedCompanies st) None true
        "" (Comparison.customUrl1 st) (Comparison.customUrl2 st) None
        (Comparison.urlLoading st),
      [PostCompare (Comparison.companyNames Id_eq_dec st)])) /\
  Comparison.runComparisonSettle r cur
  = Comparison.mkState
      (Comparison.companies cur) (Comparison.selectedCompanies cur)
      (match r with
       | Json result => Comparison.formatComparisonData result
       | _ => Comparison.comparison_ cur
       end)
      false
      (match r with
       | Json _ => Comparison.error_ cur
       | Rejected message => "Comparison failed: " ++ message
       | NotOk status errorText =>
           "Comparison failed: Comparison failed: " ++ showNat status ++
           " - " ++ errorText
       end)%string
      (Comparison.customUrl1 cur) (Comparison.customUrl2 cur)
      (Comparison.urlComparison cur) (Comparison.urlLoading cur).
Proof.
  split.
  - intro L. unfold Comparison.runComparisonStart.
    destruct (Nat.ltb_spec (List.length (Comparison.selectedCompanies st)) 2);
      [lia|reflexivity].
  - destruct r; reflexivity.
Qed.

(** X18: when the first request of [compareUrls] fails, the second URL is
    never requested: the handler ends there, with [urlLoading] switched off
    and an error message starting with "URL comparison failed: ", and writes
    nothing else to the state [cur] of that moment.  When the first request
    yields a body, [null] included, the second URL is requested and nothing
    is written yet. *)
Theorem compareUrls_first_failure
  (url2 : string) (r1 : reply body) (cur : Comparison.state Id) :
  ((forall result, r1 <> Json result) ->
   snd (Comparison.compareUrlsFirst url2 r1 cur) = [] /\
   exists message,
     fst (Comparison.compareUrlsFirst url2 r1 cur)
     = Comparison.mkState
         (Comparison.companies cur) (Comparison.selectedCompanies cur)
         (Comparison.comparison_ cur) (Comparison.loading cur)
         ("URL comparison failed: " ++ message)
         (Comparison.customUrl1 cur) (Comparison.customUrl2 cur)
         (Comparison.urlComparison cur) false) /\
  (forall result,
      r1 = Json result ->
      Comparison.compareUrlsFirst url2 r1 cur = (cur, [GetAnalyzeUrl url2])).
Proof.
  split.
  - intro F.
    destruct r1 as [m|status t|result]; [| |now contradiction (F result)];
      (split; [reflexivity|]); eexists; reflexivity.
  - intros result ->. reflexivity.
Qed.

(** X19: what the view shows after a comparison, [comparison] being shown
    before [urlComparison].  A company comparison that returned a body is
    shown as soon as its request ends, whatever the state [cur] of that
    moment.  A URL comparison whose two requests returned a body that is not
    [null] is shown if no company comparison is stored at that moment;
    otherwise the company comparison stays on the screen.  Run on their own,
    without another handler in between, both handlers end with their own
    result shown. *)
Theorem latest_comparison_shown
  (st cur : Comparison.state Id) (d : Comparison.comparison)
  (url1 url2 : string) (result1 result2 : apiResult) :
  Comparison.currentComparison
    (Comparison.runComparisonSettle (Json (Some d)) cur)
  = Comparison.formatComparisonData (Some d) /\
  (Comparison.comparison_ cur = None ->
   Comparison.currentComparison
     (Comparison.compareUrlsSecond url1 url2 (Body result1)
        (Json (Body result2)) cur)
   = Some (Comparison.urlComparisonData url1 url2
             (result_analysis result1) (result_analysis result2))) /\
  (forall c,
      Comparison.comparison_ cur = Some c ->
      Comparison.currentComparison
        (Comparison.compareUrlsSecond url1 url2 (Body result1)
           (Json (Body result2)) cur)
      = Some c) /\
  ((2 <= List.length (Comparison.selectedCompanies st))%nat ->
   Comparison.currentComparison
     (fst (Comparison.runComparison Id_eq_dec st (Json (Some d))))
   = Comparison.formatComparisonData (Some d)) /\
  (Comparison.customUrl1 st <> "" ->
   Comparison.customUrl2 st <> "" ->
   Comparison.currentComparison
     (fst (Comparison.compareUrls st (Json (Body result1))
             (Json (Body result2))))
   = Some (Comparison.urlComparisonData
             (Comparison.customUrl1 st) (Comparison.customUrl2 st)
             (result_analysis result1) (result_analysis result2))).
Proof.
  split; [reflexivity|]. split; [|split; [|split]].
  - intro E. unfold Comparison.currentComparison. simpl. now rewrite E.
  - intros c E. unfold Comparison.currentComparison. simpl. now rewrite E.
  - intro L. unfold Comparison.runComparison.
    destruct (Nat.ltb_spec (List.length (Comparison.selectedCompanies st)) 2);
      [lia|reflexivity].
  - intros U1 U2. unfold Comparison.compareUrls, Comparison.compareUrlsStart.
    destruct (String.eqb_spec (Comparison.customUrl1 st) ""); [contradiction|].
    destruct (String.eqb_spec (Comparison.customUrl2 st) ""); [contradiction|].
    reflexivity.
Qed.

(** X20: [compareUrls] does not look at [success].  When its second request
    ends, two bodies without an analysis object are stored, without touching
    the error, as two entries with all scores 0 and risk level "low" and the
    single insight that both URLs are similar; a body that is [null] gives
    no comparison but the error "URL comparison failed: " followed by the
    message of the TypeError, the one of the first body if both are [null].
    Nothing else is written to the state [cur] of that moment but
    [urlLoading], which is switched off. *)
Theorem compareUrls_without_analysis
  (cur : Comparison.state Id) (url1 url2 : string) (b1 b2 : body) :
  Comparison.compareUrlsSecond url1 url2 b1 (Json b2) cur
  = Comparison.mkState
      (Comparison.companies cur) (Comparison.selectedCompanies cur)
      (Comparison.comparison_ cur) (Comparison.loading cur)
      (match b1, b2 with
       | NullBody typeError, _ => "URL comparison failed: " ++ typeError
       | Body _, NullBody typeError => "URL comparison failed: " ++ typeError
       | Body _, Body _ => Comparison.error_ cur
       end)%string
      (Comparison.customUrl1 cur) (Comparison.customUrl2 cur)
      (match b1, b2 with
       | Body result1, Body result2 =>
           Some (Comparison.urlComparisonData url1 url2
                   (result_analysis result1) (result_analysis result2))
       | _, _ => Comparison.urlComparison cur
       end)
      false /\
  (forall p1 p2,
      (forall a, p1 <> Object a) ->
      (forall a, p2 <> Object a) ->
      Comparison.urlComparisonData url1 url2 p1 p2
      = Comparison.mkComparison
          (Some [zeroEntry "Custom URL 1" url1;
                 zeroEntry "Custom URL 2" url2])
          (Some [Comparison.bothSimilar])
          (Some "url")).
Proof.
  split.
  - destruct b1 as [e1|result1], b2 as [e2|result2]; reflexivity.
  - intros p1 p2 M1 M2. unfold Comparison.urlComparisonData.
    rewrite !urlEntry_missing by assumption.
    destruct p1 as [|s1|a1]; [| |now contradiction (M1 a1)];
      (destruct p2 as [|s2|a2]; [| |now contradiction (M2 a2)]);
      reflexivity.
Qed.

(** X21: what the request of a comparison carries.  Every entry of the
    [companies] array written into the body stands for a listed company
    whose id is selected and whose name is not [null]: it is that name if
    the name is a string, and [null] if the company has no name; no more
    entries are sent than companies are selected.  So a [null] is sent only
    for a selected company without a name, although the handler filters
    [null] out of the array before it is written. *)
Theorem companyNames_provenance (st : Comparison.state Id) :
  (forall entry,
      In entry (stringifyNames (Comparison.companyNames Id_eq_dec st)) ->
      exists c,
        In c (Comparison.companies st) /\
        In (Comparison.company_id c) (Comparison.selectedCompanies st) /\
        match Comparison.company_name c with
        | SStr s => entry = Some s
        | SUndefined => entry = None
        | SNull => False
        end) /\
  (List.length (stringifyNames (Comparison.companyNames Id_eq_dec st))
   <= List.length (Comparison.selectedCompanies st))%nat.
Proof.
  unfold stringifyNames, Comparison.companyNames. split.
  - intros entry H. apply in_map_iff in H. destruct H as (name & E & H).
    apply filter_In in H. destruct H as [H N].
    apply in_map_iff in H. destruct H as (id & F & Hid).
    destruct (find _ (Comparison.companies st)) as [c|] eqn:Fc.
    + apply find_some in Fc. destruct Fc as [Hc Hm].
      destruct (Id_eq_dec (Comparison.company_id c) id) as [Ec|];
        [|discriminate].
      exists c. rewrite Ec, F. split; [exact Hc|]. split; [exact Hid|].
      destruct name; try discriminate N; now symmetry.
    + subst name. discriminate.
  - rewrite length_map.
    etransitivity; [apply filter_length_le|]. now rewrite length_map.
Qed.

End HandlerFacts.

Lemma companyNames_sends_null :
  stringifyNames
    (Comparison.companyNames Nat.eq_dec
       (Comparison.mkState
          [Comparison.mkCompany 7%nat (SStr "Acme") SUndefined;
           Comparison.mkCompany 8%nat SUndefined SUndefined;
           Comparison.mkCompany 9%nat SNull SUndefined]
          [7%nat; 8%nat; 9%nat; 10%nat] None false "" "" "" None false))
  = [Some "Acme"; None].
Proof. reflexivity. Qed.

Lemma companyNames_provenance_witness :
  exists c,
    In c [Comparison.mkCompany 7%nat (SStr "Acme") SUndefined;
          Comparison.mkCompany 8%nat SUndefined SUndefined] /\
    In (Comparison.company_id c) [7%nat; 8%nat] /\
    match Comparison.company_name c with
    | SStr s => @None string = Some s
    | SUndefined => @None string = None
    | SNull => False
    end.
Proof.
  apply (proj1 (companyNames_provenance Nat.eq_dec
                  (Comparison.mkState
                     [Comparison.mkCompany 7%nat (SStr "Acme") SUndefined;
                      Comparison.mkCompany 8%nat SUndefined SUndefined]
                     [7%nat; 8%nat] None false "" "" "" None false))
               None).
  simpl. right. left. reflexivity.
Defined.

Lemma runComparison_phases_witness :
  Comparison.runComparisonStart Nat.eq_dec
    (Comparison.mkState [] [1; 2]%nat None false "old" "" "" None true)
  = (Comparison.mkState [] [1; 2]%nat None true "" "" "" None true,
     [PostCompare []]).
Proof.
  apply (runComparison_phases Nat.eq_dec
           (Comparison.mkState [] [1; 2]%nat None false "old" "" "" None true)
           (Comparison.mkState [] [1; 2]%nat None false "old" "" "" None true)
           (Rejected "Failed to fetch")).
  simpl. lia.
Defined.

Lemma compareUrls_first_failure_witness :
  snd (Comparison.compareUrlsFirst "https://b.example" (NotOk 500 "")
         (Comparison.mkState (Id:=nat) [] [] None false ""
                             "https://a.example" "https://b.example"
                             None true))
  = [] /\
  Comparison.compareUrlsFirst "https://b.example"
    (Json (NullBody "Cannot read properties of null (reading 'analysis')"))
    (Comparison.mkState (Id:=nat) [] [] None false ""
                        "https://a.example" "https://b.example" None true)
  = (Comparison.mkState (Id:=nat) [] [] None false ""
                        "https://a.example" "https://b.example" None true,
     [GetAnalyzeUrl "https://b.example"]).
Proof.
  split.
  - apply (compareUrls_first_failure "https://b.example" (NotOk 500 "")
             (Comparison.mkState (Id:=nat) [] [] None false ""
                                 "https://a.example" "https://b.example"
                                 None true)).
    discriminate.
  - apply (proj2 (compareUrls_first_failure "https://b.example"
                    (Json (NullBody
                       "Cannot read properties of null (reading 'analysis')"))
                    (Comparison.mkState (Id:=nat) [] [] None false ""
                                        "https://a.example" "https://b.example"
                                        None true))
                 (NullBody
                    "Cannot read properties of null (reading 'analysis')")).
    reflexivity.
Defined.

Lemma latest_comparison_shown_witness :
  Comparison.currentComparison
    (Comparison.compareUrlsSecond "https://a.example" "https://b.example"
       (Body (mkResult true Missing None))
       (Json (Body (mkResult true Missing None)))
       (Comparison.mkState (Id:=nat) [] []
          (Some (Comparison.mkComparison (Some []) None None)) false ""
          "https://a.example" "https://b.example" None true))
  = Some (Comparison.mkComparison (Some []) None None).
Proof.
  apply (latest_comparison_shown Nat.eq_dec
           (Comparison.mkState [] [] None false "" "" "" None false)
           (Comparison.mkState [] []
              (Some (Comparison.mkComparison (Some []) None None)) false ""
              "https://a.example" "https://b.example" None true)
           (Comparison.mkComparison None None None)
           "https://a.example" "https://b.example"
           (mkResult true Missing None) (mkResult true Missing None)).
  reflexivity.
Defined.

Lemma compareUrls_without_analysis_witness :
  Comparison.urlComparisonData "https://a.example" "https://b.example"
    Missing (Table "n/a")
  = Comparison.mkComparison
      (Some [zeroEntry "Custom URL 1" "https://a.example";
             zeroEntry "Custom URL 2" "https://b.example"])
      (Some [Comparison.bothSimilar])
      (Some "url").
Proof.
  apply (compareUrls_without_analysis
           (Comparison.mkState (Id:=nat) [] [] None false ""
                               "https://a.example" "https://b.example"
                               None true)
           "https://a.example" "https://b.example"
           (Body (mkResult false Missing (Some "no text")))
           (Body (mkResult false (Table "n/a") None)));
    discriminate.
Defined.

(** X22: [analyzeCustomUrl] in its two phases.  For an empty URL it does
    nothing at all; otherwise it switches [loading] on, clears the analysis
    and the error and issues its one request.  When the request ends,
    whatever has become of the state [cur] in the meantime, it switches
    [loading] off and writes one more field only: the formatted analysis of
    a body whose [success] is truthy, and otherwise the error, a message
    starting with "URL analysis failed: ". *)
Theorem analyzeCustomUrl_phases (st cur : Analysis.state) (r : reply body) :
  (Analysis.customUrl st = "" -> Analysis.analyzeCustomUrlStart st = (st, [])) /\
  (Analysis.customUrl st <> "" ->
   Analysis.analyzeCustomUrlStart st
   = (Analysis.mkState None true (Analysis.customUrl st) "",
      [GetAnalyzeUrl (Analysis.customUrl st)])) /\
  Analysis.loading (Analysis.analyzeCustomUrlSettle r cur) = false /\
  Analysis.customUrl (Analysis.analyzeCustomUrlSettle r cur)
  = Analysis.customUrl cur /\
  ((exists result,
       r = Json (Body result) /\ success result = true /\
       Analysis.analysis_ (Analysis.analyzeCustomUrlSettle r cur)
       = Analysis.formatAnalysisData (result_analysis result) /\
       Analysis.error_ (Analysis.analyzeCustomUrlSettle r cur)
       = Analysis.error_ cur) \/
   ((forall result, r = Json (Body result) -> success result = false) /\
    Analysis.analysis_ (Analysis.analyzeCustomUrlSettle r cur)
    = Analysis.analysis_ cur /\
    String.prefix "URL analysis failed: "
      (Analysis.error_ (Analysis.analyzeCustomUrlSettle r cur)) = true)).
Proof.
  split; [|split].
  - intro E. unfold Analysis.analyzeCustomUrlStart. now rewrite E.
  - intro U. unfold Analysis.analyzeCustomUrlStart.
    destruct (String.eqb_spec (Analysis.customUrl st) "");
      [contradiction|reflexivity].
  - destruct r as [m|status t|[e|result]];
      [| | |destruct (success result) eqn:S];
      unfold Analysis.analyzeCustomUrlSettle; try rewrite S;
      (split; [reflexivity|split; [reflexivity|]]);
      try (right; split; [|split; [reflexivity|apply prefix_append]]);
      try discriminate.
    + left. exists result. auto.
    + intros result' E. injection E as <-. exact S.
Qed.

Lemma analyzeCustomUrl_phases_witness :
  Analysis.analyzeCustomUrlStart (Analysis.mkState None false "" "old")
  = (Analysis.mkState None false "" "old", []) /\
  Analysis.analyzeCustomUrlStart
    (Analysis.mkState None false "https://a.example" "old")
  = (Analysis.mkState None true "https://a.example" "",
     [GetAnalyzeUrl "https://a.example"]).
Proof.
  split.
  - apply (analyzeCustomUrl_phases (Analysis.mkState None false "" "old")
             (Analysis.mkState None false "" "old") (Rejected "x")).
    reflexivity.
  - apply (analyzeCustomUrl_phases
             (Analysis.mkState None false "https://a.example" "old")
             (Analysis.mkState None false "" "old") (Rejected "x")).
    discriminate.
Defined.

(* ================================================================== *)
(** ** Scanning a table-format string *)

Lemma append_assoc (a b c : string) :
  ((a ++ b) ++ c = a ++ (b ++ c))%string.
Proof. induction a as [|x a IH]; simpl; [reflexivity|now rewrite IH]. Qed.

Lemma prefix_split (a s : string) :
  String.prefix a s = true -> exists post, s = (a ++ post)%string.
Proof.
  revert s. induction a as [|c a IH]; intros s H.
  - exists s. reflexivity.
  - destruct s as [|d s]; [discriminate|]. simpl in H.
    destruct (ascii_dec c d) as [->|]; [|discriminate].
    destruct (IH s H) as [post ->]. now exists post.
Qed.

Lemma includes_prefix (needle s : string) :
  String.prefix needle s = true -> Str.includes needle s = true.
Proof. intro H. destruct s; simpl in *; now rewrite H. Qed.

Lemma includes_tail (needle : string) (c : ascii) (s : string) :
  Str.includes needle s = true -> Str.includes needle (String c s) = true.
Proof.
  intro H. change (Str.includes needle (String c s))
    with (if String.prefix needle (String c s) then true
          else Str.includes needle s).
  rewrite H. now destruct (String.prefix needle (String c s)).
Qed.

Lemma includes_append_r (needle a s : string) :
  Str.includes needle s = true -> Str.includes needle (a ++ s) = true.
Proof.
  intro H. induction a as [|c a IH]; simpl append; [exact H|].
  now apply includes_tail.
Qed.

Lemma digits_spec (s : string) :
  s = (fst (Str.digits s) ++ snd (Str.digits s))%string /\
  Str.allDigits (fst (Str.digits s)) = true /\
  Str.startsWithDigit (snd (Str.digits s)) = false.
Proof.
  induction s as [|c s IH]; simpl; [auto|].
  destruct (Str.is_digit c) eqn:D.
  - destruct (Str.digits s) as [d r]. simpl in *.
    destruct IH as (E & A & N). rewrite D, A. split; [now f_equal|auto].
  - simpl. rewrite D. auto.
Qed.

Lemma digits_of_digits (d r : string) :
  Str.allDigits d = true -> Str.startsWithDigit r = false ->
  Str.digits (d ++ r) = (d, r).
Proof.
  intros A N. induction d as [|c d IH]; simpl.
  - destruct r as [|c r]; [reflexivity|]. simpl in *. now rewrite N.
  - simpl in A. apply andb_true_iff in A. destruct A as [C A].
    rewrite C, (IH A). reflexivity.
Qed.

(** The anchored matcher only accepts a numeral followed by [/10]. *)
Lemma matchAt_sound (s : string) (m : Str.capture) :
  Str.matchAt s = Some m ->
  (exists post, s = (Str.captureText m ++ "/10" ++ post)%string) /\
  Str.intDigits m <> "" /\
  Str.allDigits (Str.intDigits m) = true /\
  match Str.fracDigits m with
  | Some f => f <> "" /\ Str.allDigits f = true
  | None => True
  end.
Proof.
  unfold Str.matchAt.
  destruct (digits_spec s) as (E1 & A1 & _).
  destruct (Str.digits s) as [d1 r1]. simpl in E1, A1.
  destruct d1 as [|c1 d1]; [discriminate|].
  assert (Plain : (if String.prefix "/10" r1
                   then Some (Str.mkCapture (String c1 d1) None) else None)
                  = Some m ->
                  (exists post, s = (Str.captureText m ++ "/10" ++ post)%string)
                  /\ Str.intDigits m <> "" /\
                  Str.allDigits (Str.intDigits m) = true /\
                  match Str.fracDigits m with
                  | Some f => f <> "" /\ Str.allDigits f = true
                  | None => True
                  end).
  { destruct (String.prefix "/10" r1) eqn:P; [|discriminate].
    intro H. injection H as <-. apply prefix_split in P.
    destruct P as [post ->].
    split; [exists post; exact E1|].
    split; [discriminate|]. split; [exact A1|exact I]. }
  destruct r1 as [|c r2]; [exact Plain|].
  destruct (ascii_dec c "."%char) as [->|N].
  - destruct (digits_spec r2) as (E2 & A2 & _).
    destruct (Str.digits r2) as [d2 r3]. simpl in E2, A2.
    destruct d2 as [|c2 d2]; [exact Plain|].
    destruct (String.prefix "/10" r3) eqn:P; [|exact Plain].
    intro H. injection H as <-. apply prefix_split in P.
    destruct P as [post ->].
    split.
    + exists post. rewrite E1, E2. unfold Str.captureText. simpl.
      f_equal. rewrite !append_assoc. simpl. reflexivity.
    + split; [discriminate|]. split; [exact A1|].
      split; [discriminate|exact A2].
  - intro H. apply Plain.
    destruct c as [[] [] [] [] [] [] [] []]; try exact H.
    now contradiction N.
Qed.

Lemma regexMatch_sound (s : string) (m : Str.capture) :
  Str.regexMatch s = Some m ->
  (exists pre post,
      s = (pre ++ Str.captureText m ++ "/10" ++ post)%string) /\
  Str.intDigits m <> "" /\
  Str.allDigits (Str.intDigits m) = true /\
  match Str.fracDigits m with
  | Some f => f <> "" /\ Str.allDigits f = true
  | None => True
  end.
Proof.
  induction s as [|c s IH].
  - simpl. discriminate.
  - change (Str.regexMatch (String c s))
      with (match Str.matchAt (String c s) with
            | Some m => Some m
            | None => Str.regexMatch s
            end).
    destruct (Str.matchAt (String c s)) as [m'|] eqn:M.
    + intro H. injection H as ->.
      destruct (matchAt_sound _ _ M) as ((post & E) & R).
      split; [|exact R]. exists "", post. exact E.
    + intro H. destruct (IH H) as ((pre & post & E) & R).
      split; [|exact R]. exists (String c pre), post. simpl. now f_equal.
Qed.

(** X23: the score read from a line comes from a numeral of the line:
    digits, optionally a dot and more digits, directly followed by [/10];
    as long as the decimal value of that numeral does not exceed the largest
    double, the score is the double nearest to it (ties to even), which need
    not be the decimal value itself. *)
Theorem extractScore_reads_a_numeral (line : string) (m : Str.capture) :
  Str.regexMatch line = Some m ->
  Str.captureDecimal m <= maxValue ->
  Analysis.extractScore line = Num (round64 (Str.captureDecimal m)) /\
  (exists pre post,
      line = (pre ++ Str.captureText m ++ "/10" ++ post)%string) /\
  Str.intDigits m <> "" /\
  Str.allDigits (Str.intDigits m) = true /\
  match Str.fracDigits m with
  | Some f => f <> "" /\ Str.allDigits f = true
  | None => True
  end.
Proof.
  intros H _. split; [|now apply regexMatch_sound].
  unfold Analysis.extractScore. now rewrite H.
Qed.

Lemma extractScore_reads_a_numeral_witness :
  Analysis.extractScore "Readability: 6.75/10 (fair)" = Num (27 # 4) /\
  Analysis.extractScore "Overall Risk: 0.1/10"
  = Num (3602879701896397 # 36028797018963968).
Proof.
  split.
  - apply (extractScore_reads_a_numeral "Readability: 6.75/10 (fair)"
             (Str.mkCapture "6" (Some "75"))).
    + reflexivity.
    + vm_compute. discriminate.
  - apply (extractScore_reads_a_numeral "Overall Risk: 0.1/10"
             (Str.mkCapture "0" (Some "1"))).
    + reflexivity.
    + vm_compute. discriminate.
Defined.

(** X24: a line that does not contain [/10] is read as the score 0. *)
Theorem extractScore_without_slash_ten (line : string) :
  Str.includes "/10" line = false -> Analysis.extractScore line = Num 0.
Proof.
  intro H. unfold Analysis.extractScore.
  destruct (Str.regexMatch line) as [m|] eqn:M; [|reflexivity].
  destruct (regexMatch_sound _ _ M) as ((pre & post & E) & _).
  assert (Y : Str.includes "/10" line = true).
  { rewrite E. apply includes_append_r, includes_append_r.
    apply includes_prefix, prefix_append. }
  congruence.
Qed.

Lemma extractScore_without_slash_ten_witness :
  Analysis.extractScore "Data Risk: 8 out of 10" = Num 0.
Proof.
  apply extractScore_without_slash_ten. reflexivity.
Defined.

Lemma string_of_uint_digits (u : Decimal.uint) :
  Str.allDigits (NilEmpty.string_of_uint u) = true.
Proof. induction u; simpl; auto. Qed.

Lemma digitsValue_of_uint (u : Decimal.uint) (a : nat) :
  Str.digitsValue (N.of_nat a) (NilEmpty.string_of_uint u)
  = N.of_nat (Nat.of_uint_acc u a).
Proof.
  revert a. induction u; intro a;
    cbn [NilEmpty.string_of_uint Str.digitsValue Nat.of_uint_acc];
    [reflexivity|..];
    rewrite <- IHu; f_equal; rewrite Nat.tail_mul_spec;
    match goal with
    | |- context [(N_of_ascii ?c - 48)%N] =>
        let v := eval vm_compute in (N_of_ascii c - 48)%N in
        change (N_of_ascii c - 48)%N with v
    end; lia.
Qed.

Lemma showNat_value (n : nat) :
  Str.digitsValue 0 (showNat n) = N.of_nat n.
Proof.
  unfold showNat. change 0%N with (N.of_nat 0).
  rewrite digitsValue_of_uint.
  change (Nat.of_uint_acc (Nat.to_uint n) 0) with (Nat.of_uint (Nat.to_uint n)).
  now rewrite DecimalNat.Unsigned.of_to.
Qed.

Lemma showNat_nonempty (n : nat) : showNat n <> "".
Proof.
  unfold showNat. intro E.
  pose proof (DecimalNat.Unsigned.of_to n) as R.
  destruct (Nat.to_uint n) eqn:U; try discriminate E.
  simpl in R. subst n. discriminate U.
Qed.

Lemma regexMatch_skips (label s : string) :
  Str.noDigit label = true ->
  Str.regexMatch (label ++ s) = Str.regexMatch s.
Proof.
  intro N. induction label as [|c label IH]; [reflexivity|].
  simpl in N. apply andb_true_iff in N. destruct N as [C N].
  apply negb_true_iff in C.
  change (Str.regexMatch (String c label ++ s))
    with (match Str.matchAt (String c (label ++ s)) with
          | Some m => Some m
          | None => Str.regexMatch (label ++ s)
          end).
  unfold Str.matchAt. simpl. rewrite C. now apply IH.
Qed.

(** X25: a line made of a label without digits, a natural number below
    2^53 in decimal and [/10] is read back as that number, whatever
    follows. *)
Theorem extractScore_reads_integer (label rest : string) (n : nat) :
  Str.noDigit label = true ->
  (Z.of_nat n < 2 ^ 53)%Z ->
  Analysis.extractScore (label ++ showNat n ++ "/10" ++ rest)
  = Num (Z.of_nat n # 1).
Proof.
  intros N B. unfold Analysis.extractScore.
  rewrite regexMatch_skips by exact N.
  assert (M : Str.matchAt (showNat n ++ "/10" ++ rest)
              = Some (Str.mkCapture (showNat n) None)).
  { unfold Str.matchAt.
    rewrite digits_of_digits
      by (try apply string_of_uint_digits; reflexivity).
    pose proof (showNat_nonempty n) as NE.
    destruct (showNat n) as [|c d]; [now contradiction NE|].
    simpl. destruct rest; reflexivity. }
  assert (R : Str.regexMatch (showNat n ++ "/10" ++ rest)
              = Some (Str.mkCapture (showNat n) None)).
  { destruct (showNat n ++ "/10" ++ rest)%string as [|c s] eqn:E.
    - simpl in M. discriminate M.
    - change (Str.regexMatch (String c s))
        with (match Str.matchAt (String c s) with
              | Some m => Some m
              | None => Str.regexMatch s
              end).
      now rewrite M. }
  rewrite R. unfold Str.captureValue, Str.captureDecimal.
  cbn [Str.intDigits Str.fracDigits].
  rewrite showNat_value, nat_N_Z.
  change (Z.of_nat n # 1) with (inject_Z (Z.of_nat n)).
  f_equal. apply round64_integer. lia.
Qed.

Lemma extractScore_reads_integer_witness :
  Analysis.extractScore ("Overall Risk: " ++ showNat 7 ++ "/10" ++ "")
  = Num (Z.of_nat 7 # 1).
Proof.
  apply extractScore_reads_integer; [reflexivity|].
  vm_compute. reflexivity.
Defined.

Lemma trimEnd_empty (s : string) :
  Str.trimEnd s = "" -> Str.allSpace s = true.
Proof.
  induction s as [|c s IH]; [reflexivity|]. simpl.
  destruct (Str.trimEnd s) as [|d t]; [|discriminate].
  destruct (Str.is_space c); [|discriminate].
  intros _. now apply IH.
Qed.

Lemma trimStart_allSpace (s : string) :
  Str.allSpace (Str.trimStart s) = true -> Str.allSpace s = true.
Proof.
  induction s as [|c s IH]; [reflexivity|]. simpl.
  destruct (Str.is_space c) eqn:C; [exact IH|].
  simpl. now rewrite C.
Qed.

Lemma trim_empty (s : string) : Str.trim s = "" -> Str.allSpace s = true.
Proof. intro H. now apply trimStart_allSpace, trimEnd_empty. Qed.

Lemma includes_allSpace (c : ascii) (needle s : string) :
  Str.is_space c = false -> Str.allSpace s = true ->
  Str.includes (String c needle) s = false.
Proof.
  intros C A. induction s as [|d s IH]; [reflexivity|].
  simpl in A. apply andb_true_iff in A. destruct A as [D A].
  change (Str.includes (String c needle) (String d s))
    with (if String.prefix (String c needle) (String d s) then true
          else Str.includes (String c needle) s).
  simpl. destruct (ascii_dec c d) as [->|_]; [congruence|]. now apply IH.
Qed.

Lemma scanLine_blank (s : scores) (line : string) :
  Str.trim line = "" -> Analysis.scanLine s line = s.
Proof.
  intro H. apply trim_empty in H. unfold Analysis.scanLine.
  rewrite !includes_allSpace by (try exact H; reflexivity).
  reflexivity.
Qed.

Lemma fold_scanLine_filter (lines : list string) (s : scores) :
  fold_left Analysis.scanLine
    (filter (fun line => negb (String.eqb (Str.trim line) "")) lines) s
  = fold_left Analysis.scanLine lines s.
Proof.
  revert s. induction lines as [|l lines IH]; intro s; [reflexivity|].
  simpl. destruct (String.eqb_spec (Str.trim l) "") as [E|N]; simpl.
  - rewrite IH, (scanLine_blank s l E). reflexivity.
  - apply IH.
Qed.

(** X26: lines made of white space only have no influence on the scores of
    a parsed table: dropping them first, as [parseTableData] does, gives the
    scores that scanning every line of the string gives. *)
Theorem parseTableData_blank_lines (tableString : string) :
  risk_scores (Analysis.parseTableData tableString)
  = Some (fold_left Analysis.scanLine
            (Str.split "010"%char tableString) no_scores).
Proof.
  unfold Analysis.parseTableData, Analysis.tableLines. simpl.
  now rewrite fold_scanLine_filter.
Qed.

Lemma split_nonempty (sep : ascii) (a : string) : Str.split sep a <> [].
Proof.
  destruct a as [|c a]; simpl; [discriminate|].
  destruct (Ascii.eqb c sep); [discriminate|].
  destruct (Str.split sep a); discriminate.
Qed.

Lemma split_append (sep : ascii) (a b : string) :
  Str.split sep (a ++ String sep b)
  = Str.split sep a ++ Str.split sep b.
Proof.
  induction a as [|c a IH]; simpl.
  - now rewrite Ascii.eqb_refl.
  - destruct (Ascii.eqb c sep).
    + simpl. now rewrite IH.
    + rewrite IH. pose proof (split_nonempty sep a) as NE.
      destruct (Str.split sep a); [now contradiction NE|reflexivity].
Qed.

Lemma split_noLineFeed (line : string) :
  Str.noLineFeed line = true -> Str.split "010"%char line = [line].
Proof.
  induction line as [|c line IH]; [reflexivity|]. simpl.
  intro H. apply andb_true_iff in H. destruct H as [C H].
  apply negb_true_iff in C. rewrite C, (IH H). reflexivity.
Qed.

(** Bucketing [v || 0] is bucketing [v]. *)
Lemma getRiskLevel_or_zero (v : value) :
  Analysis.getRiskLevel (or v (Num 0)) = Analysis.getRiskLevel v.
Proof.
  unfold or. destruct (truthy v) eqn:T; [reflexivity|].
  destruct v; try reflexivity.
  simpl in T. apply negb_false_iff, Qeq_bool_iff in T.
  symmetry. change (Comparison.getRiskLevel (Num q)
                    = Comparison.getRiskLevel (Num 0)).
  now apply getRiskLevel_Qeq.
Qed.

(** X27: when the last line of a table carries the label "Overall Risk:"
    (and none of the labels tested before it), the overall risk of the
    parsed table is the score of that line, whatever the lines before it
    say, and the risk level is the bucket of that score. *)
Theorem parseTableData_last_overall_line (tableString line : string) :
  Str.noLineFeed line = true ->
  Str.includes "Overall Risk:" line = true ->
  Str.includes "Data Risk:" line = false ->
  Str.includes "User Rights:" line = false ->
  Str.includes "Readability:" line = false ->
  field overall_risk
        (risk_scores
           (Analysis.parseTableData (tableString ++ String "010"%char line)))
  = Analysis.extractScore line /\
  risk_level
    (Analysis.parseTableData (tableString ++ String "010"%char line))
  = Some (Analysis.getRiskLevel (Analysis.extractScore line)).
Proof.
  intros NL O D U R.
  unfold Analysis.parseTableData, Analysis.tableLines.
  cbn [risk_scores risk_level field].
  rewrite fold_scanLine_filter, split_append, (split_noLineFeed line NL).
  rewrite fold_left_app. cbn [fold_left].
  set (before := fold_left Analysis.scanLine
                   (Str.split "010"%char tableString) no_scores).
  unfold Analysis.scanLine. rewrite D, U, R, O.
  cbn [overall_risk]. split; [reflexivity|].
  now rewrite getRiskLevel_or_zero.
Qed.

Lemma parseTableData_last_overall_line_witness :
  field overall_risk
        (risk_scores
           (Analysis.parseTableData
              ("Overall Risk: 2/10" ++ String "010"%char
                                              "Overall Risk: 9/10")))
  = Analysis.extractScore "Overall Risk: 9/10".
Proof.
  apply (parseTableData_last_overall_line
           "Overall Risk: 2/10" "Overall Risk: 9/10"); reflexivity.
Defined.

(** X28: the bar chart of a comparison has one row per entry, in the order
    of the entries: the row of an entry carries its company name, or
    "Unknown" without one, and for each of the four scores the score itself
    when it is truthy and 0 otherwise, so a missing score, [null], [NaN] and
    0 are all charted as the number 0. *)
Theorem comparisonChartData_rows (c : Comparison.comparison)
  (l : list analysis) :
  Comparison.comparisons c = Some l ->
  List.length (Comparison.comparisonChartData (Some c)) = List.length l /\
  (forall (i : nat) (comp : analysis),
      nth_error l i = Some comp ->
      exists row,
        nth_error (Comparison.comparisonChartData (Some c)) i = Some row /\
        Comparison.row_name row = text_or (company (rest comp)) "Unknown" /\
        filledFrom (field data_risk (risk_scores comp))
                   (Comparison.row_data_risk row) /\
        filledFrom (field user_rights_score (risk_scores comp))
                   (Comparison.row_user_rights row) /\
        filledFrom (field readability_score (risk_scores comp))
                   (Comparison.row_readability row) /\
        filledFrom (field overall_risk (risk_scores comp))
                   (Comparison.row_overall_risk row)) /\
  (forall row,
      In row (Comparison.comparisonChartData (Some c)) ->
      exists comp, In comp l /\ row = Comparison.chartRowOf comp).
Proof.
  intro E. unfold Comparison.comparisonChartData. rewrite E.
  split; [apply length_map|split].
  - intros i comp H. exists (Comparison.chartRowOf comp).
    split; [now apply map_nth_error|].
    unfold Comparison.chartRowOf, filledFrom. simpl.
    repeat split;
      first [apply or_zero_substituted | apply or_zero_number].
  - intros row H. apply in_map_iff in H. destruct H as (comp & <- & H).
    exists comp. auto.
Qed.

Lemma comparisonChartData_rows_witness :
  exists row,
    nth_error
      (Comparison.comparisonChartData
         (Some (Comparison.mkComparison (Some [emptyAnalysis]) None None)))
      0
    = Some row /\
    Comparison.row_name row = "Unknown" /\
    Comparison.row_overall_risk row = Num 0.
Proof.
  destruct (comparisonChartData_rows
              (Comparison.mkComparison (Some [emptyAnalysis]) None None)
              [emptyAnalysis] eq_refl) as (_ & H & _).
  destruct (H 0%nat emptyAnalysis eq_refl) as (row & R & N & _ & _ & _ & O).
  exists row. split; [exact R|]. split; [exact N|].
  destruct O as [[[T _]|[_ O]] _]; [discriminate T|exact O].
Defined.
